(** * Datasette: metadata cascade, SQL execution and foreign-key labels

    A shallow embedding of [datasette/app.py]: the methods
    [Datasette.metadata], [Datasette.execute] (with its inner function
    [sql_operation_in_thread] and the connection bridge
    [execute_against_connection_in_thread]) and
    [Datasette.expand_foreign_keys]; then the methods built on
    [metadata] ([plugin_config], [table_metadata],
    [update_with_inherited_metadata], [get_canned_query]), the settings
    ([CONFIG_OPTIONS], [config], [config_dict]), the registration of the
    databases in [__init__] and the headers of [asgi_start].

    Python objects are modelled by the data they hold:
    - a metadata document is a dictionary with string keys, a [gmap];
      its values are [None], booleans, integers, strings and nested
      dictionaries (list and float leaves are not represented: the
      methods below never look inside a leaf);
    - a raised exception is the [Raises] case of [outcome];
    - the SQLite driver is a function from the statement, its parameters
      and the time limit in force to the behaviour of the cursor;
    - a dictionary of response headers, whose order is sent, is the list
      of its items. *)

From stdpp Require Import gmap strings list fin_maps pretty.

Open Scope string_scope.
Open Scope list_scope.
Open Scope nat_scope.

(** ** Values *)

(** Values of a metadata document, as loaded from JSON or YAML. *)
#[warnings="-register-all"] Inductive value :=
| VNone
| VBool (b : bool)
| VInt (z : Z)
| VStr (s : string)
| VDict (d : gmap string value).

(** Values of a table cell or of a statement parameter: [None], an
    integer or text (floating-point numbers and byte strings are not
    represented). *)
Inductive sqlval :=
| SNull
| SInt (z : Z)
| SText (s : string).

#[global] Instance sqlval_eq_dec : EqDecision sqlval.
Proof. solve_decision. Defined.

#[global] Instance sqlval_countable : Countable sqlval.
Proof.
  refine (inj_countable'
    (λ v, match v with
          | SNull => inl ()
          | SInt z => inr (inl z)
          | SText s => inr (inr s)
          end)
    (λ c, match c with
          | inl _ => SNull
          | inr (inl z) => SInt z
          | inr (inr s) => SText s
          end) _).
  by intros [].
Defined.

(** The [params] argument of [execute]: a sequence for [?] placeholders
    or a dictionary for named ones. *)
Inductive params :=
| ParamList (l : list sqlval)
| ParamDict (d : gmap string sqlval).

(** ** Exceptions and outcomes *)

Inductive exn :=
| AssertionError (msg : string)
| AttributeError
| TypeError
| ValueError
| KeyError (key : string)
| OperationalError (args : list string)
| DatabaseError (args : list string)
| QueryInterrupted (e : exn) (sql : string) (ps : option params).

Inductive outcome (A : Type) :=
| Returns (a : A)
| Raises (e : exn).
Arguments Returns {A} a.
Arguments Raises {A} e.

Definition bind {A B} (o : outcome A) (k : A → outcome B) : outcome B :=
  match o with
  | Returns a => k a
  | Raises e => Raises e
  end.

Notation "x ←! o ; k" := (bind o (λ x, k))
  (at level 20, o at level 100, k at level 200, right associativity,
   format "x  ←!  o ;  '/' k").

(** ** Python operations on metadata values *)

(** Truth value of an object: [None], [False], [0], the empty string and
    the empty dictionary are false. *)
Definition truthy (v : value) : bool :=
  match v with
  | VNone => false
  | VBool b => b
  | VInt z => negb (z =? 0)%Z
  | VStr s => negb (bool_decide (s = ""))
  | VDict d => negb (bool_decide (dom d = ∅))
  end.

(** [v or {}] *)
Definition or_empty (v : value) : value :=
  if truthy v then v else VDict ∅.

(** [v.get(k)]: only a dictionary has the method.  The key may be
    [None], which no dictionary of a document holds. *)
Definition py_get (v : value) (k : option string) : outcome value :=
  match v with
  | VDict d =>
      Returns (match k with
               | Some s => default VNone (d !! s)
               | None => VNone
               end)
  | _ => Raises AttributeError
  end.

Fixpoint is_substring (k s : string) : bool :=
  String.prefix k s ||
  match s with
  | EmptyString => false
  | String _ s' => is_substring k s'
  end.

(** [key in item]: key membership for a dictionary, substring test for a
    string, [TypeError] for an object that is not a container. *)
Definition py_contains (key : string) (item : value) : outcome bool :=
  match item with
  | VDict d => Returns (bool_decide (is_Some (d !! key)))
  | VStr s => Returns (is_substring key s)
  | _ => Raises TypeError
  end.

(** [item[key]] with a string key. *)
Definition py_getitem (item : value) (key : string) : outcome value :=
  match item with
  | VDict d =>
      match d !! key with
      | Some v => Returns v
      | None => Raises (KeyError key)
      end
  | _ => Raises TypeError
  end.

(** [m.update(item)]: the entries of [item] replace those of [m] with the
    same key.  A non-empty string is iterated character by character and
    rejected with [ValueError]; numbers, booleans and [None] are not
    iterable. *)
Definition py_update (m : gmap string value) (item : value)
  : outcome (gmap string value) :=
  match item with
  | VDict d => Returns (d ∪ m)
  | VStr s => if bool_decide (s = "") then Returns m else Raises ValueError
  | _ => Raises TypeError
  end.

(** ** The application object *)

Record foreign_key := {
  fk_column : string;
  fk_other_table : string;
  fk_other_column : string;
}.

(** A [Database] of [datasette/database.py], by what this file uses of
    it: the two flags read when a connection is opened, its path, and
    the results of [foreign_keys_for_table] and
    [label_column_for_table]. *)
Record Database := {
  path : option string;
  is_mutable : bool;
  is_memory : bool;
  foreign_keys_for_table : string → list foreign_key;
  label_column_for_table : string → option string;
}.

(** The attributes of a [Datasette] instance that the methods below
    read.  [max_returned_rows] and [page_size] are the settings
    [max_returned_rows] and [default_page_size], row counts; the time
    limit [sql_time_limit_ms] is an integer, compared as such. *)
Record Datasette := {
  _metadata : gmap string value;
  databases : gmap string Database;
  max_returned_rows : nat;
  sql_time_limit_ms : Z;
  page_size : nat;
}.

(** ** [Datasette.metadata] *)

Definition assert_message : string :=
  "Cannot call metadata() with table= specified but not database=".

(** [self._metadata.get("databases") or {}] *)
Definition databases_of (self : Datasette) : outcome value :=
  v ←! py_get (VDict (_metadata self)) (Some "databases");
  Returns (or_empty v).

(** [databases.get(database) or {}] *)
Definition database_scope (databases : value) (database : option string)
  : outcome value :=
  v ←! py_get databases database;
  Returns (or_empty v).

(** [((databases.get(database) or {}).get("tables") or {}).get(table) or {}] *)
Definition table_scope (databases : value) (database table : option string)
  : outcome value :=
  db ←! database_scope databases database;
  tables ←! py_get db (Some "tables");
  v ←! py_get (or_empty tables) table;
  Returns (or_empty v).

(** The list searched by both kinds of lookup: [append] for the database
    scope, [insert(0, _)] for the table scope, [append] for the whole
    document, and [search_list[:1]] when [fallback] is false. *)
Definition search_list (self : Datasette) (database table : option string)
    (fallback : bool) : outcome (list value) :=
  databases ←! databases_of self;
  let items := [] in
  items ←!
    match database with
    | Some _ =>
        db ←! database_scope databases database;
        Returns (items ++ [db])
    | None => Returns items
    end;
  items ←!
    match table with
    | Some _ =>
        table_metadata ←! table_scope databases database table;
        Returns (table_metadata :: items)
    | None => Returns items
    end;
  let items := items ++ [VDict (_metadata self)] in
  Returns (if fallback then items else take 1 items).

(** [for item in search_list: if key in item: return item[key]] and
    [return None] after the loop. *)
Fixpoint first_item (key : string) (search_list : list value)
  : outcome value :=
  match search_list with
  | [] => Returns VNone
  | item :: rest =>
      found ←! py_contains key item;
      if found : bool then py_getitem item key else first_item key rest
  end.

(** [m = {}] and [for item in search_list: m.update(item)]. *)
Fixpoint merged (m : gmap string value) (search_list : list value)
  : outcome (gmap string value) :=
  match search_list with
  | [] => Returns m
  | item :: rest =>
      m' ←! py_update m item;
      merged m' rest
  end.

Definition metadata (self : Datasette) (key database table : option string)
    (fallback : bool) : outcome value :=
  match database, table with
  | None, Some _ => Raises (AssertionError assert_message)
  | _, _ =>
      items ←! search_list self database table fallback;
      match key with
      | Some k => first_item k items
      | None =>
          m ←! merged ∅ items;
          Returns (VDict m)
      end
  end.

(** ** The SQLite driver *)

Definition row := list sqlval.

(** A cursor after [cursor.execute(sql, params)]: the rows it delivers
    ([pending]), the exception it raises when asked for a row past them,
    if any ([failure]), and [cursor.description]. *)
Record cursor := {
  pending : list row;
  failure : option exn;
  description : list string;
}.

(** [cursor.fetchmany(size)], called below with [size >= 2] only. *)
Definition fetchmany (c : cursor) (size : nat) : outcome (list row) :=
  if size <=? length (pending c) then Returns (take size (pending c))
  else match failure c with
       | Some e => Raises e
       | None => Returns (pending c)
       end.

(** [cursor.fetchall()] *)
Definition fetchall (c : cursor) : outcome (list row) :=
  match failure c with
  | Some e => Raises e
  | None => Returns (pending c)
  end.

(** A connection: the name it was opened under, and what a statement run
    on it under a time limit (in ms) does.  The progress handler that
    [sqlite_timelimit] installs around the statement is part of that
    behaviour: a statement that outlives the limit fails with
    [OperationalError("interrupted")]. *)
Record connection := {
  conn_name : string;
  cursor_execute : string → params → Z → outcome cursor;
}.

(** What the module imports and this file does not define:
    [sqlite3.connect], the effect of [prepare_connection] on a fresh
    connection, [utils.escape_sqlite], and the names of the attributes
    that an object of the class [threading.local] has from its class,
    [__class__], [__doc__], [__module__], [__init__] and so on, all of
    them true objects that are not connections ([__dict__] is not among
    them: it is treated on its own below). *)
Record environment := {
  sqlite3_connect : string → outcome connection;
  prepare_connection : connection → outcome connection;
  escape_sqlite : string → string;
  local_attributes : list string;
}.

(** Those names in CPython 3.8. *)
Definition object_attributes : list string :=
  ["__class__"; "__delattr__"; "__dir__"; "__doc__"; "__eq__"; "__format__";
   "__ge__"; "__getattribute__"; "__gt__"; "__hash__"; "__init__";
   "__init_subclass__"; "__le__"; "__lt__"; "__module__"; "__ne__";
   "__new__"; "__reduce__"; "__reduce_ex__"; "__repr__"; "__setattr__";
   "__sizeof__"; "__str__"; "__subclasshook__"].

(** An object that is not a connection, such as the class of
    [connections] or its dictionary: to run a statement on it, as to use
    it as a connection in any other way, raises [AttributeError]. *)
Definition not_a_connection (name : string) : connection :=
  {| conn_name := name; cursor_execute := λ _ _ _, Raises AttributeError |}.

(** One line printed by [sql_operation_in_thread]: the objects formatted
    into ["ERROR: conn={}, sql = {}, params = {}: {}"]. *)
Record error_line := {
  line_conn : string;
  line_sql : string;
  line_params : option params;
  line_error : exn;
}.

(** The state a worker thread sees: the attributes stored for it in the
    thread-local [connections], which are the entries of its
    [connections.__dict__], and what has been printed. *)
Record world := {
  connections : gmap string connection;
  stdout : list error_line;
}.

Definition set_connection (db_name : string) (conn : connection) (w : world)
  : world :=
  {| connections := <[db_name := conn]> (connections w); stdout := stdout w |}.

Definition print (l : error_line) (w : world) : world :=
  {| connections := connections w; stdout := stdout w ++ [l] |}.

(** [utils.Results(rows, truncated, description)] *)
Record Results := {
  rows : list row;
  truncated : bool;
  res_description : list string;
}.

(** ** [Datasette.execute] *)

(** The argument of [sqlite3.connect] for a database on file:
    ["file:{}?{}".format(db.path, qs)]. *)
Definition connection_uri (db : Database) : string :=
  let qs := if is_mutable db then "mode=ro" else "immutable=1" in
  "file:" +:+ default "None" (path db) +:+ "?" +:+ qs.

(** [getattr(connections, db_name, None)], when what it returns is
    true.  The name [__dict__] stands for the dictionary of the stored
    attributes, which is false while it is empty; another name is looked
    up among the stored attributes first and then among the attributes
    the object has from its class. *)
Definition getattr_connections (env : environment) (db_name : string)
    (w : world) : option connection :=
  if bool_decide (db_name = "__dict__") then
    if bool_decide (dom (connections w) = ∅) then None
    else Some (not_a_connection db_name)
  else
    match connections w !! db_name with
    | Some conn => Some conn
    | None =>
        if bool_decide (db_name ∈ local_attributes env)
        then Some (not_a_connection db_name)
        else None
    end.

(** The first half of [in_thread]: the object this thread finds under
    [db_name], or else a new connection, opened, prepared and stored.  A
    name that is not in [self.databases] raises [KeyError];
    [setattr(connections, "__dict__", conn)] raises [AttributeError],
    the attribute being read-only. *)
Definition get_connection (env : environment) (self : Datasette)
    (db_name : string) (w : world) : outcome connection * world :=
  match getattr_connections env db_name w with
  | Some conn => (Returns conn, w)
  | None =>
      match databases self !! db_name with
      | None => (Raises (KeyError db_name), w)
      | Some db =>
          let opened :=
            if is_memory db then sqlite3_connect env ":memory:"
            else sqlite3_connect env (connection_uri db) in
          match conn ←! opened; prepare_connection env conn with
          | Raises e => (Raises e, w)
          | Returns conn =>
              if bool_decide (db_name = "__dict__")
              then (Raises AttributeError, w)
              else (Returns conn, set_connection db_name conn w)
          end
      end
  end.

(** [in_thread] run on a worker: [fn(conn)] on that connection. *)
Definition execute_against_connection_in_thread {A} (env : environment)
    (self : Datasette) (db_name : string)
    (fn : connection → world → outcome A * world) (w : world)
  : outcome A * world :=
  match get_connection env self db_name w with
  | (Returns conn, w) => fn conn w
  | (Raises e, w) => (Raises e, w)
  end.

(** [params or {}] *)
Definition params_or_empty (ps : option params) : params :=
  match ps with
  | None => ParamDict ∅
  | Some (ParamList l) =>
      if bool_decide (l = []) then ParamDict ∅ else ParamList l
  | Some (ParamDict d) =>
      if bool_decide (d = ∅) then ParamDict ∅ else ParamDict d
  end.

(** [page_size or self.page_size] *)
Definition page_size_or_default (self : Datasette) (ps : option nat) : nat :=
  match ps with
  | Some (S n) => S n
  | _ => page_size self
  end.

(** The first three lines of [sql_operation_in_thread]. *)
Definition time_limit (self : Datasette) (custom_time_limit : option Z) : Z :=
  let time_limit_ms := sql_time_limit_ms self in
  match custom_time_limit with
  | Some c =>
      if negb (c =? 0)%Z && (c <? time_limit_ms)%Z then c else time_limit_ms
  | None => time_limit_ms
  end.

(** [max_returned_rows] after
    [if max_returned_rows == page_size: max_returned_rows += 1]. *)
Definition row_cap (self : Datasette) (page_size : nat) : nat :=
  let max_returned_rows := max_returned_rows self in
  if max_returned_rows =? page_size then max_returned_rows + 1
  else max_returned_rows.

(** The body of the [try]: the statement, then the rows and the
    [truncated] flag. *)
Definition fetch_rows (self : Datasette) (conn : connection) (sql : string)
    (ps : option params) (truncate : bool) (page_size : nat)
    (time_limit_ms : Z) : outcome (cursor * list row * bool) :=
  cursor ←! cursor_execute conn sql (params_or_empty ps) time_limit_ms;
  let max_returned_rows := row_cap self page_size in
  if negb (max_returned_rows =? 0) && truncate then
    rows ←! fetchmany cursor (max_returned_rows + 1);
    let truncated := max_returned_rows <? length rows in
    Returns (cursor, take max_returned_rows rows, truncated)
  else
    rows ←! fetchall cursor;
    Returns (cursor, rows, false).

Definition sql_operation_in_thread (self : Datasette) (sql : string)
    (ps : option params) (truncate : bool) (custom_time_limit : option Z)
    (page_size : nat) (log_sql_errors : bool) (conn : connection) (w : world)
  : outcome Results * world :=
  let time_limit_ms := time_limit self custom_time_limit in
  match fetch_rows self conn sql ps truncate page_size time_limit_ms with
  | Raises (OperationalError args as e) =>
      if bool_decide (args = ["interrupted"]) then
        (Raises (QueryInterrupted e sql ps), w)
      else
        let w :=
          if log_sql_errors then
            print {| line_conn := conn_name conn; line_sql := sql;
                     line_params := ps; line_error := e |} w
          else w in
        (Raises e, w)
  | Raises e => (Raises e, w)
  | Returns (cursor, rows, truncated) =>
      if truncate then
        (Returns {| rows := rows; truncated := truncated;
                    res_description := description cursor |}, w)
      else
        (Returns {| rows := rows; truncated := false;
                    res_description := description cursor |}, w)
  end.

Definition execute (env : environment) (self : Datasette) (db_name sql : string)
    (ps : option params) (truncate : bool) (custom_time_limit : option Z)
    (page_size : option nat) (log_sql_errors : bool) (w : world)
  : outcome Results * world :=
  let page_size := page_size_or_default self page_size in
  execute_against_connection_in_thread env self db_name
    (sql_operation_in_thread self sql ps truncate custom_time_limit page_size
       log_sql_errors) w.

(** ** [Datasette.expand_foreign_keys] *)

(** [str(value)] *)
Definition py_str (v : sqlval) : string :=
  match v with
  | SNull => "None"
  | SInt z => pretty z
  | SText s => s
  end.

(** [sep.join(l)] *)
Fixpoint join (sep : string) (l : list string) : string :=
  match l with
  | [] => ""
  | [x] => x
  | x :: rest => x +:+ sep +:+ join sep rest
  end.

Definition newline : string := String (Ascii.ascii_of_nat 10) "".

(** The statement that selects key and label of the referenced rows,
    with [n] placeholders. *)
Definition label_sql (env : environment) (fk : foreign_key)
    (label_column : string) (n : nat) : string :=
  let other_column := escape_sqlite env (fk_other_column fk) in
  let label_column := escape_sqlite env label_column in
  let other_table := escape_sqlite env (fk_other_table fk) in
  let placeholders := join ", " (replicate n "?") in
  newline +:+
  "            select " +:+ other_column +:+ ", " +:+ label_column +:+ newline +:+
  "            from " +:+ other_table +:+ newline +:+
  "            where " +:+ other_column +:+ " in (" +:+ placeholders +:+ ")"
    +:+ newline +:+
  "        ".

(** [{(fk["column"], value): str(value) for value in values}] *)
Definition raw_labels (column : string) (values : list sqlval)
  : gmap (string * sqlval) sqlval :=
  foldl (λ m value, <[(column, value) := SText (py_str value)]> m) ∅ values.

(** [for id, value in results: labeled_fks[(fk["column"], id)] = value];
    a row that does not unpack into two cells raises [ValueError]. *)
Fixpoint label_rows (column : string) (rs : list row)
    (labeled_fks : gmap (string * sqlval) sqlval)
  : outcome (gmap (string * sqlval) sqlval) :=
  match rs with
  | [] => Returns labeled_fks
  | [id; value] :: rest =>
      label_rows column rest (<[(column, id) := value]> labeled_fks)
  | _ :: _ => Raises ValueError
  end.

Definition expand_foreign_keys (env : environment) (self : Datasette)
    (database table column : string) (values : list sqlval) (w : world)
  : outcome (gmap (string * sqlval) sqlval) * world :=
  match databases self !! database with
  | None => (Raises (KeyError database), w)
  | Some db =>
      let foreign_keys := foreign_keys_for_table db table in
      match filter (λ fk, fk_column fk = column) foreign_keys with
      | [] => (Returns ∅, w)
      | fk :: _ =>
          match label_column_for_table db (fk_other_table fk) with
          | None | Some "" => (Returns (raw_labels (fk_column fk) values), w)
          | Some label_column =>
              let distinct : gset sqlval := list_to_set values in
              let sql := label_sql env fk label_column (size distinct) in
              match execute env self database sql
                      (Some (ParamList (elements distinct)))
                      false None None true w with
              | (Raises (QueryInterrupted _ _ _), w) => (Returns ∅, w)
              | (Raises e, w) => (Raises e, w)
              | (Returns results, w) =>
                  (label_rows (fk_column fk) (rows results) ∅, w)
              end
          end
      end
  end.

(** ** Sample data *)

Module Sample.

(** A metadata document with a title at each of the three scopes, a
    licence at the global scope only and a key at the table scope only. *)
Definition table_md : gmap string value :=
  {[ "title" := VStr "Table"; "units" := VInt 1 ]}.

Definition database_md : gmap string value :=
  {[ "title" := VStr "DB"; "tables" := VDict {[ "t" := VDict table_md ]} ]}.

Definition document : gmap string value :=
  {[ "title" := VStr "Global"; "license" := VStr "MIT";
     "databases" := VDict {[ "db" := VDict database_md ]} ]}.

(** A database whose table [t] has a foreign key from [owner] to
    [people.id]; [people] has the label column [name], [things] has
    none. *)
Definition db : Database :=
  {| path := Some "db.db"; is_mutable := true; is_memory := false;
     foreign_keys_for_table := λ table,
       if bool_decide (table = "t") then
         [ {| fk_column := "owner"; fk_other_table := "people";
              fk_other_column := "id" |};
           {| fk_column := "thing"; fk_other_table := "things";
              fk_other_column := "id" |} ]
       else [];
     label_column_for_table := λ table,
       if bool_decide (table = "people") then Some "name" else None |}.

(** An instance with [max_returned_rows = default_page_size = 10] and
    the default time limit of one second. *)
Definition ds : Datasette :=
  {| _metadata := document; databases := {[ "db" := db ]};
     max_returned_rows := 10; sql_time_limit_ms := 1000; page_size := 10 |}.

(** Rows [0], [1], ..., [n - 1] of one integer cell. *)
Definition numbered (n : nat) : list row :=
  (λ i, [SInt (Z.of_nat i)]) <$> seq 0 n.

(** A connection on which every statement yields [rs]. *)
Definition serving (rs : list row) : connection :=
  {| conn_name := "db";
     cursor_execute := λ _ _ _,
       Returns {| pending := rs; failure := None; description := ["n"] |} |}.

(** A connection on which every statement is interrupted before its
    first row. *)
Definition interrupted : connection :=
  {| conn_name := "db";
     cursor_execute := λ _ _ _,
       Returns {| pending := []; failure := Some (OperationalError ["interrupted"]);
                  description := [] |} |}.

(** A connection on which no statement compiles. *)
Definition broken : connection :=
  {| conn_name := "db";
     cursor_execute := λ _ _ _,
       Raises (OperationalError ["no such table: people"]) |}.

(** A connection on which every statement yields one row, whose cell
    is the time limit the statement ran under. *)
Definition limit_probe : connection :=
  {| conn_name := "db";
     cursor_execute := λ _ _ time_limit_ms,
       Returns {| pending := [[SInt time_limit_ms]]; failure := None;
                  description := ["ms"] |} |}.

Definition env : environment :=
  {| sqlite3_connect := λ _, Raises (OperationalError ["unable to open database file"]);
     prepare_connection := Returns;
     escape_sqlite := λ s, s;
     local_attributes := object_attributes |}.

(** A worker thread that holds [conn] for the database [db]. *)
Definition worker (conn : connection) : world :=
  {| connections := {[ "db" := conn ]}; stdout := [] |}.

End Sample.

(** ** The cascade in the words of the specification *)

(** "First scope defining the key wins", [None] when no scope does. *)
Fixpoint spec_first_defining (key : string) (scopes : list (gmap string value))
  : value :=
  match scopes with
  | [] => VNone
  | scope :: outer =>
      match scope !! key with
      | Some v => v
      | None => spec_first_defining key outer
      end
  end.

(** The scopes a lookup consults.  With fallback: "table scope (if
    given), database scope (if given), global scope".  Without: "only
    the innermost scope present (table if given else database if given
    else global)". *)
Definition spec_scopes (database table : option string)
    (T D G : gmap string value) (fallback : bool) : list (gmap string value) :=
  if fallback then
    (if table is Some _ then [T] else []) ++
    (if database is Some _ then [D] else []) ++ [G]
  else
    [if table is Some _ then T else if database is Some _ then D else G].

(** "Inner keys override outer ones with identical names": the union of
    the scopes, listed innermost first, in which a key has the value of
    the first scope that defines it. *)
Definition spec_merged (scopes : list (gmap string value))
  : gmap string value :=
  foldr (∪) ∅ scopes.

(** ** Other methods that read the metadata document *)

(** [a or b] *)
Definition py_or (a b : value) : value :=
  if truthy a then a else b.

(** [v.get(k, d)] *)
Definition py_get_default (v : value) (k : string) (d : value)
  : outcome value :=
  match v with
  | VDict m => Returns (default d (m !! k))
  | _ => Raises AttributeError
  end.

(** [Datasette.plugin_config] *)
Definition plugin_config (self : Datasette) (plugin_name : string)
    (database table : option string) (fallback : bool) : outcome value :=
  plugins ←! metadata self (Some "plugins") database table fallback;
  match plugins with
  | VNone => Returns VNone
  | _ => py_get plugins (Some plugin_name)
  end.

(** [Datasette.table_metadata]:
    [(self.metadata("databases") or {}).get(database, {})
       .get("tables", {}).get(table, {})] *)
Definition table_metadata (self : Datasette) (database table : string)
  : outcome value :=
  dbs ←! metadata self (Some "databases") None None true;
  db ←! py_get_default (or_empty dbs) database (VDict ∅);
  tables ←! py_get_default db "tables" (VDict ∅);
  py_get_default tables table (VDict ∅).

(** [metadata.get(key) or self.metadata(key)], the right operand being
    evaluated only when the left one is false. *)
Definition inherited (self : Datasette) (metadata_ : gmap string value)
    (key : string) : outcome value :=
  v ←! py_get (VDict metadata_) (Some key);
  if truthy v then Returns v else metadata self (Some key) None None true.

(** [Datasette.update_with_inherited_metadata]: the dictionary passed in
    after [metadata.update({...})]. *)
Definition update_with_inherited_metadata (self : Datasette)
    (metadata_ : gmap string value) : outcome (gmap string value) :=
  source ←! inherited self metadata_ "source";
  source_url ←! inherited self metadata_ "source_url";
  license ←! inherited self metadata_ "license";
  license_url ←! inherited self metadata_ "license_url";
  about ←! inherited self metadata_ "about";
  about_url ←! inherited self metadata_ "about_url";
  py_update metadata_
    (VDict {[ "source" := source; "source_url" := source_url;
              "license" := license; "license_url" := license_url;
              "about" := about; "about_url" := about_url ]}).

(** The keys that [update_with_inherited_metadata] sets. *)
Definition inherited_keys : list string :=
  ["source"; "source_url"; "license"; "license_url"; "about"; "about_url"].

(** The instance with another metadata document. *)
Definition with_metadata (self : Datasette) (document : gmap string value)
  : Datasette :=
  {| _metadata := document; databases := databases self;
     max_returned_rows := max_returned_rows self;
     sql_time_limit_ms := sql_time_limit_ms self;
     page_size := page_size self |}.

Definition alter_dict (f : gmap string value → gmap string value) (v : value)
  : value :=
  match v with
  | VDict d => VDict (f d)
  | _ => v
  end.

(** The document after [query["name"] = query_name] on the dictionary
    found at [databases -> database_name -> queries -> query_name]: the
    query returned by [get_canned_query] is that dictionary itself, not
    a copy. *)
Definition name_query (database_name query_name : string)
    (document : gmap string value) : gmap string value :=
  alter (alter_dict
    (alter (alter_dict
      (alter (alter_dict
        (alter (alter_dict (insert "name" (VStr query_name))) query_name))
        "queries"))
      database_name))
    "databases" document.

(** [Datasette.get_canned_query]: the query ([None] when the function
    falls off its end) and the instance afterwards. *)
Definition get_canned_query (self : Datasette)
    (database_name query_name : string) : outcome value * Datasette :=
  let found :=
    queries ←! metadata self (Some "queries") (Some database_name) None false;
    py_get (or_empty queries) (Some query_name) in
  match found with
  | Raises e => (Raises e, self)
  | Returns query =>
      if truthy query then
        match query with
        | VDict d =>
            (Returns (VDict (<["name" := VStr query_name]> d)),
             with_metadata self
               (name_query database_name query_name (_metadata self)))
        | _ =>
            (Returns (VDict (<["name" := VStr query_name]>
                               {[ "sql" := query ]})), self)
        end
      else (Returns VNone, self)
  end.

(** ** Settings *)

Record ConfigOption := {
  option_name : string;
  option_default : value;
  option_help : string;
}.

Definition CONFIG_OPTIONS : list ConfigOption := [
  {| option_name := "default_page_size"; option_default := VInt 100;
     option_help := "Default page size for the table view" |};
  {| option_name := "max_returned_rows"; option_default := VInt 1000;
     option_help :=
       "Maximum rows that can be returned from a table or custom query" |};
  {| option_name := "num_sql_threads"; option_default := VInt 3;
     option_help :=
       "Number of threads in the thread pool for executing SQLite queries" |};
  {| option_name := "sql_time_limit_ms"; option_default := VInt 1000;
     option_help := "Time limit for a SQL query in milliseconds" |};
  {| option_name := "default_facet_size"; option_default := VInt 30;
     option_help := "Number of values to return for requested facets" |};
  {| option_name := "facet_time_limit_ms"; option_default := VInt 200;
     option_help := "Time limit for calculating a requested facet" |};
  {| option_name := "facet_suggest_time_limit_ms"; option_default := VInt 50;
     option_help := "Time limit for calculating a suggested facet" |};
  {| option_name := "hash_urls"; option_default := VBool false;
     option_help :=
       "Include DB file contents hash in URLs, for far-future caching" |};
  {| option_name := "allow_facet"; option_default := VBool true;
     option_help :=
       "Allow users to specify columns to facet using ?_facet= parameter" |};
  {| option_name := "allow_download"; option_default := VBool true;
     option_help :=
       "Allow users to download the original SQLite database files" |};
  {| option_name := "suggest_facets"; option_default := VBool true;
     option_help := "Calculate and display suggested facets" |};
  {| option_name := "allow_sql"; option_default := VBool true;
     option_help := "Allow arbitrary SQL queries via ?sql= parameter" |};
  {| option_name := "default_cache_ttl"; option_default := VInt 5;
     option_help :=
       "Default HTTP cache TTL (used in Cache-Control: max-age= header)" |};
  {| option_name := "default_cache_ttl_hashed";
     option_default := VInt (365 * 24 * 60 * 60);
     option_help := "Default HTTP cache TTL for hashed URL pages" |};
  {| option_name := "cache_size_kb"; option_default := VInt 0;
     option_help := "SQLite cache size in KB (0 == use SQLite default)" |};
  {| option_name := "allow_csv_stream"; option_default := VBool true;
     option_help :=
       "Allow .csv?_stream=1 to download all rows (ignoring max_returned_rows)" |};
  {| option_name := "max_csv_mb"; option_default := VInt 100;
     option_help :=
       "Maximum size allowed for CSV export in MB - set 0 to disable this limit" |};
  {| option_name := "truncate_cells_html"; option_default := VInt 2048;
     option_help :=
       "Truncate cells longer than this in HTML table view - set 0 to disable" |};
  {| option_name := "force_https_urls"; option_default := VBool false;
     option_help :=
       "Force URLs in API output to always use https:// protocol" |}
].

(** [{option.name: option.default for option in CONFIG_OPTIONS}]; the
    names are distinct, so that no entry replaces another. *)
Definition DEFAULT_CONFIG : gmap string value :=
  list_to_map ((λ o, (option_name o, option_default o)) <$> CONFIG_OPTIONS).

(** [self._config] as [__init__] builds it:
    [dict(DEFAULT_CONFIG, **(config or {}))]. *)
Definition init_config (config : option (gmap string value))
  : gmap string value :=
  default ∅ config ∪ DEFAULT_CONFIG.

(** [Datasette.config], on [self._config]. *)
Definition config (_config : gmap string value) (key : string) : value :=
  default VNone (_config !! key).

(** [Datasette.config_dict], on [self._config]. *)
Definition config_dict (_config : gmap string value) : gmap string value :=
  list_to_map
    ((λ o, (option_name o, config _config (option_name o))) <$> CONFIG_OPTIONS).

(** The names of the options. *)
Definition option_names : list string := option_name <$> CONFIG_OPTIONS.

(** ** The databases of an instance *)

(** An element of [self.files]: the marker [MEMORY] or a path. *)
Inductive file :=
| MEMORY
| File (p : string).

(** [self.files] as [__init__] sets it. *)
Definition init_files (files immutables : list string) (memory : bool)
  : list file :=
  let all := File <$> (files ++ immutables) in
  match all with
  | [] => [MEMORY]
  | _ => if memory then MEMORY :: all else all
  end.

(** How [__init__] ends its loop over the files. *)
Inductive registration :=
| Registered (dbs : gmap string Database)
| MultipleFiles (stem : string).

Section registration.

(** Of [datasette/database.py]: the property [Database.name], and what
    the two inspection methods of the database opened at a path
    return. *)
Context (name : Database → string).
Context (inspect : option string →
                   (string → list foreign_key) * (string → option string)).

(** A database with the key it has in [self.databases]. *)
Definition named (db : Database) : string * Database := (name db, db).

(** [Database(self, path, is_mutable=is_mutable, is_memory=is_memory)] *)
Definition new_database (p : option string) (mutable memory : bool) : Database :=
  {| path := p; is_mutable := mutable; is_memory := memory;
     foreign_keys_for_table := (inspect p).1;
     label_column_for_table := (inspect p).2 |}.

(** The database made for one element of [self.files]. *)
Definition database_of_file (immutables : list string) (f : file) : Database :=
  match f with
  | MEMORY => new_database None true true
  | File p => new_database (Some p) (bool_decide (p ∉ immutables)) false
  end.

(** The loop of [__init__] that fills [self.databases]. *)
Fixpoint register_files (immutables : list string) (fs : list file)
    (dbs : gmap string Database) : registration :=
  match fs with
  | [] => Registered dbs
  | f :: rest =>
      let db := database_of_file immutables f in
      if bool_decide (is_Some (dbs !! name db)) then MultipleFiles (name db)
      else register_files immutables rest (<[name db := db]> dbs)
  end.

(** [self.databases] after [__init__]. *)
Definition init_databases (files immutables : list string) (memory : bool)
  : registration :=
  register_files immutables (init_files files immutables memory) ∅.

End registration.

(** ** Response headers *)

(** [c.lower()] for a character of Latin-1 text: the letters [A-Z] and
    the capital letters from [0xC0] to [0xDE], save the multiplication
    sign [0xD7], move up by 32. *)
Definition lower_char (c : Ascii.ascii) : Ascii.ascii :=
  let n := Ascii.nat_of_ascii c in
  if (65 <=? n) && (n <=? 90)
     || (192 <=? n) && (n <=? 222) && negb (n =? 215)
  then Ascii.ascii_of_nat (n + 32)
  else c.

(** [s.lower()] *)
Fixpoint lower (s : string) : string :=
  match s with
  | EmptyString => EmptyString
  | String c s' => String (lower_char c) (lower s')
  end.

(** A dictionary of headers, in insertion order. [d[k] = v] replaces the
    value of a key that is present and adds a new key last. *)
Fixpoint dict_setitem (k v : string) (d : list (string * string))
  : list (string * string) :=
  match d with
  | [] => [(k, v)]
  | (k', v') :: d' =>
      if bool_decide (k' = k) then (k', v) :: d'
      else (k', v') :: dict_setitem k v d'
  end.

(** [dict(pairs)] *)
Definition dict_of_pairs (pairs : list (string * string))
  : list (string * string) :=
  foldl (λ d kv, dict_setitem kv.1 kv.2 d) [] pairs.

(** The event [http.response.start]; its headers are the pairs of
    [headers.items()], which [encode("latin1")] leaves as they are. *)
Record response_start := {
  start_status : nat;
  start_headers : list (string * string);
}.

(** [asgi_start]: the event it sends. *)
Definition asgi_start (status : nat) (headers : list (string * string))
    (content_type : string) : response_start :=
  let headers :=
    dict_of_pairs (filter (λ kv, lower kv.1 ≠ "content-type") headers) in
  let headers := dict_setitem "content-type" content_type headers in
  {| start_status := status; start_headers := headers |}.

(** A row of two cells, key and label. *)
Definition row_of (p : sqlval * sqlval) : row := [p.1; p.2].

(** ** More sample data *)

Module Fixture.

(** A document with plugin settings at the global and at the table
    scope, canned queries for the database [db], a source and a licence
    at the global scope and an empty source for the database. *)
Definition named_query : gmap string value :=
  {[ "sql" := VStr "select 2"; "title" := VStr "Two" ]}.

Definition queries : gmap string value :=
  {[ "top" := VStr "select 1"; "named" := VDict named_query;
     "off" := VStr "" ]}.

Definition table_md : gmap string value :=
  {[ "plugins" := VDict {[ "map" := VDict {[ "zoom" := VInt 9 ]} ]} ]}.

Definition database_md : gmap string value :=
  {[ "source" := VStr ""; "queries" := VDict queries;
     "tables" := VDict {[ "t" := VDict table_md ]} ]}.

Definition databases_md : gmap string value :=
  {[ "db" := VDict database_md; "blank" := VNone ]}.

Definition document : gmap string value :=
  {[ "source" := VStr "Census"; "license" := VStr "MIT";
     "plugins" := VDict {[ "map" := VDict {[ "zoom" := VInt 3 ]};
                           "auth" := VDict {[ "on" := VBool true ]} ]};
     "databases" := VDict databases_md ]}.

Definition ds : Datasette := with_metadata Sample.ds document.

(** A naming of databases after their path, and databases without
    foreign keys or label columns. *)
Definition name (db : Database) : string :=
  match path db with
  | Some p => p
  | None => ":memory:"
  end.

Definition inspect (p : option string)
  : (string → list foreign_key) * (string → option string) :=
  (λ _, [], λ _, None).

(** A driver that opens any database: the connection is named after the
    argument of [sqlite3.connect] and serves three rows. *)
Definition env : environment :=
  {| sqlite3_connect := λ uri,
       Returns {| conn_name := uri;
                  cursor_execute := λ _ _ _,
                    Returns {| pending := Sample.numbered 3; failure := None;
                               description := ["n"] |} |};
     prepare_connection := Returns;
     escape_sqlite := λ s, s;
     local_attributes := object_attributes |}.

(** A worker thread that holds no connection yet. *)
Definition idle : world := {| connections := ∅; stdout := [] |}.

(** A connection on which every statement yields the rows [rs] and then
    fails with [e]. *)
Definition failing_after (rs : list row) (e : exn) : connection :=
  {| conn_name := "db";
     cursor_execute := λ _ _ _,
       Returns {| pending := rs; failure := Some e; description := ["n"] |} |}.

End Fixture.

(** * Theorems *)

(** ** Metadata cascade *)

Section metadata_facts.

Context (self : Datasette).

Lemma first_item_dicts (key : string) (scopes : list (gmap string value)) :
  first_item key (VDict <$> scopes) = Returns (spec_first_defining key scopes).
Proof.
  induction scopes as [|scope outer IH]; simpl; [done|].
  by destruct (scope !! key) as [v|] eqn:Hk; simpl.
Qed.

(** The search list when every scope on the way is a dictionary. *)
Lemma search_list_dicts (database table : option string) (fallback : bool)
    (dbs : value) (T D : gmap string value) :
  (is_Some table → is_Some database) →
  databases_of self = Returns dbs →
  (is_Some database → database_scope dbs database = Returns (VDict D)) →
  (is_Some table → table_scope dbs database table = Returns (VDict T)) →
  search_list self database table fallback =
    Returns (VDict <$> spec_scopes database table T D (_metadata self) fallback).
Proof.
  intros Hc Hdbs HD HT. unfold search_list. rewrite Hdbs. simpl.
  destruct database as [d|], table as [t|]; simpl.
  - rewrite HD, HT by eauto. simpl. by destruct fallback.
  - rewrite HD by eauto. simpl. by destruct fallback.
  - destruct Hc as [? [=]]; eauto.
  - by destruct fallback.
Qed.

(** C9: a lookup with a table and no database raises the assertion
    error, whatever the key, the document and the fallback flag. *)
Theorem metadata_table_without_database
    (key : option string) (table : string) (fallback : bool) :
  metadata self key None (Some table) fallback =
    Raises (AssertionError assert_message).
Proof. reflexivity. Qed.

(** C4: a keyed lookup returns the value of the first scope that defines
    the key, among table (if given), database (if given) and global in
    that order when [fallback] is true, and in the innermost given scope
    alone when it is false; [None] when none of the scopes consulted
    defines the key. *)
Theorem metadata_keyed_cascade (key : string) (database table : option string)
    (fallback : bool) (dbs : value) (T D : gmap string value) :
  (is_Some table → is_Some database) →
  databases_of self = Returns dbs →
  (is_Some database → database_scope dbs database = Returns (VDict D)) →
  (is_Some table → table_scope dbs database table = Returns (VDict T)) →
  metadata self (Some key) database table fallback =
    Returns (spec_first_defining key
               (spec_scopes database table T D (_metadata self) fallback)).
Proof.
  intros Hc Hdbs HD HT. unfold metadata.
  rewrite (search_list_dicts _ _ _ dbs T D) by done. simpl.
  rewrite first_item_dicts.
  destruct database, table; try done.
  destruct Hc as [? [=]]; eauto.
Qed.

Lemma merged_dicts (m : gmap string value) (scopes : list (gmap string value)) :
  merged m (VDict <$> scopes) = Returns (foldl (λ m scope, scope ∪ m) m scopes).
Proof.
  revert m. induction scopes as [|scope outer IH]; intros m; simpl; [done|].
  apply IH.
Qed.

Lemma foldl_update_reverse (m : gmap string value)
    (scopes : list (gmap string value)) :
  foldl (λ m scope, scope ∪ m) m scopes = foldr (∪) m (reverse scopes).
Proof.
  revert m. induction scopes as [|scope outer IH]; intros m; simpl; [done|].
  by rewrite IH, reverse_cons, foldr_app.
Qed.

(** What the merged view is: the scopes consulted, folded so that the
    scope listed last, the outermost, has the final word on a key. *)
Lemma metadata_merged_view (database table : option string) (fallback : bool)
    (dbs : value) (T D : gmap string value) :
  (is_Some table → is_Some database) →
  databases_of self = Returns dbs →
  (is_Some database → database_scope dbs database = Returns (VDict D)) →
  (is_Some table → table_scope dbs database table = Returns (VDict T)) →
  metadata self None database table fallback =
    Returns (VDict (spec_merged
      (reverse (spec_scopes database table T D (_metadata self) fallback)))).
Proof.
  intros Hc Hdbs HD HT. unfold metadata.
  rewrite (search_list_dicts _ _ _ dbs T D) by done. simpl.
  rewrite merged_dicts, foldl_update_reverse. simpl.
  destruct database, table; try done.
  destruct Hc as [? [=]]; eauto.
Qed.

End metadata_facts.

Lemma metadata_keyed_cascade_witness :
  metadata Sample.ds (Some "title") (Some "db") (Some "t") true =
    Returns (VStr "Table") ∧
  metadata Sample.ds (Some "license") (Some "db") (Some "t") true =
    Returns (VStr "MIT") ∧
  metadata Sample.ds (Some "license") (Some "db") (Some "t") false =
    Returns VNone.
Proof.
  pose (dbs := VDict {[ "db" := VDict Sample.database_md ]}).
  split; [|split].
  - apply (metadata_keyed_cascade Sample.ds "title" (Some "db") (Some "t")
             true dbs Sample.table_md Sample.database_md);
      [eauto | reflexivity | intros _; reflexivity | intros _; reflexivity].
  - apply (metadata_keyed_cascade Sample.ds "license" (Some "db") (Some "t")
             true dbs Sample.table_md Sample.database_md);
      [eauto | reflexivity | intros _; reflexivity | intros _; reflexivity].
  - apply (metadata_keyed_cascade Sample.ds "license" (Some "db") (Some "t")
             false dbs Sample.table_md Sample.database_md);
      [eauto | reflexivity | intros _; reflexivity | intros _; reflexivity].
Defined.

(** C2: on the sample document, whose three scopes each define [title],
    the merged view of table [t] of database [db] holds the global
    title, although the keyed lookup of [title] in the same scopes
    returns the table's and the union with inner scopes overriding
    outer ones holds the table's. *)
Theorem metadata_merged_view_outer_wins :
  ∃ m : gmap string value,
    metadata Sample.ds None (Some "db") (Some "t") true = Returns (VDict m) ∧
    m !! "title" = Some (VStr "Global") ∧
    spec_merged [Sample.table_md; Sample.database_md; Sample.document]
      !! "title" = Some (VStr "Table") ∧
    metadata Sample.ds (Some "title") (Some "db") (Some "t") true =
      Returns (VStr "Table").
Proof.
  eexists. split; [reflexivity|]. split; [|split]; reflexivity.
Qed.

(** ** Execution *)

Section execute_facts.

Context (env : environment) (self : Datasette).

(** A call of [execute] on a worker that obtains [conn] runs
    [sql_operation_in_thread] on it, with the page size defaulted. *)
Lemma execute_on_connection (db_name sql : string) (ps : option params)
    (truncate : bool) (custom_time_limit : option Z) (page : option nat)
    (log_sql_errors : bool) (w w' : world) (conn : connection) :
  get_connection env self db_name w = (Returns conn, w') →
  execute env self db_name sql ps truncate custom_time_limit page
    log_sql_errors w =
  sql_operation_in_thread self sql ps truncate custom_time_limit
    (page_size_or_default self page) log_sql_errors conn w'.
Proof.
  intros Hconn. unfold execute, execute_against_connection_in_thread.
  by rewrite Hconn.
Qed.

Lemma fetchmany_no_failure (c : cursor) (size : nat) :
  failure c = None → fetchmany c size = Returns (take size (pending c)).
Proof.
  intros Hf. unfold fetchmany. rewrite Hf.
  destruct (size <=? length (pending c)) eqn:Hle; [done|].
  apply Nat.leb_gt in Hle. by rewrite take_ge by lia.
Qed.

(** The result of a call whose statement delivers all its rows: cut at
    the cap when [truncate] is set and the cap is not zero, whole
    otherwise. *)
Lemma execute_rows (db_name sql : string) (ps : option params)
    (truncate : bool) (custom_time_limit : option Z) (page : option nat)
    (log_sql_errors : bool) (w w' : world) (conn : connection) (c : cursor) :
  get_connection env self db_name w = (Returns conn, w') →
  cursor_execute conn sql (params_or_empty ps)
    (time_limit self custom_time_limit) = Returns c →
  failure c = None →
  let cap := row_cap self (page_size_or_default self page) in
  execute env self db_name sql ps truncate custom_time_limit page
    log_sql_errors w =
    (Returns
       (if negb (cap =? 0) && truncate then
          {| rows := take cap (pending c);
             truncated := bool_decide (cap < length (pending c));
             res_description := description c |}
        else
          {| rows := pending c; truncated := false;
             res_description := description c |}), w').
Proof.
  intros Hconn Hc Hf cap.
  rewrite (execute_on_connection _ _ _ _ _ _ _ _ _ _ Hconn).
  unfold sql_operation_in_thread, fetch_rows. rewrite Hc. simpl. fold cap.
  destruct (negb (cap =? 0) && truncate) eqn:Hcut; simpl.
  - apply andb_true_iff in Hcut as [_ ->].
    rewrite fetchmany_no_failure by done. simpl.
    rewrite take_take, Nat.min_l by lia. rewrite length_take.
    do 3 f_equal. destruct (cap <? _) eqn:Hlt.
    + apply Nat.ltb_lt in Hlt. rewrite bool_decide_eq_true_2; [done | lia].
    + apply Nat.ltb_ge in Hlt. rewrite bool_decide_eq_false_2; [done | lia].
  - unfold fetchall. rewrite Hf. simpl. by destruct truncate.
Qed.

Lemma fetchmany_enough (c : cursor) (size : nat) :
  failure c = None ∨ size ≤ length (pending c) →
  fetchmany c size = Returns (take size (pending c)).
Proof.
  intros [Hf|Hle]; [by apply fetchmany_no_failure|].
  unfold fetchmany. by rewrite (proj2 (Nat.leb_le _ _) Hle).
Qed.

Lemma fetchmany_short (c : cursor) (size : nat) (e : exn) :
  failure c = Some e → length (pending c) < size →
  fetchmany c size = Raises e.
Proof.
  intros Hf Hlt. unfold fetchmany.
  by rewrite (proj2 (Nat.leb_gt _ _) Hlt), Hf.
Qed.

(** The outcome of a call whose fetch fails: an exception, never a
    result. *)
Lemma sql_operation_raises (sql : string) (ps : option params)
    (truncate : bool) (custom_time_limit : option Z) (page_size : nat)
    (log_sql_errors : bool) (conn : connection) (w : world) (e : exn) :
  fetch_rows self conn sql ps truncate page_size
    (time_limit self custom_time_limit) = Raises e →
  ∃ e', (sql_operation_in_thread self sql ps truncate custom_time_limit
           page_size log_sql_errors conn w).1 = Raises e'.
Proof.
  intros Hfetch. unfold sql_operation_in_thread. rewrite Hfetch.
  destruct e; simpl; eauto.
  destruct (bool_decide _); simpl; eauto.
Qed.

(** C3: with [truncate] and a row cap, the cap is [max_rows + 1] when
    [max_rows] equals the page size and [max_rows] otherwise.  The call
    fetches [cap + 1] rows at most: it reads the first [cap + 1] rows
    of the cursor and nothing after them, so that it returns whenever
    the cursor delivers that many rows, whatever comes after them, even
    a failure, and fails when the cursor fails before them.
    [truncated] tells whether more than [cap] rows were fetched, and the
    first [cap] rows are returned.  Without [truncate] the cursor is
    read to its end: all rows are returned and [truncated] is false,
    and a cursor that fails makes the call fail. *)
Theorem execute_truncation (db_name sql : string) (ps : option params)
    (custom_time_limit : option Z) (page : option nat) (log_sql_errors : bool)
    (w w' : world) (conn : connection) (c : cursor) :
  get_connection env self db_name w = (Returns conn, w') →
  cursor_execute conn sql (params_or_empty ps)
    (time_limit self custom_time_limit) = Returns c →
  let max_rows := max_returned_rows self in
  let cap :=
    if max_rows =? page_size_or_default self page then max_rows + 1
    else max_rows in
  (0 < max_rows →
   (failure c = None ∨ cap + 1 ≤ length (pending c) →
    ∃ fetched,
      fetched = take (cap + 1) (pending c) ∧
      fetchmany c (cap + 1) = Returns fetched ∧
      length fetched ≤ cap + 1 ∧
      execute env self db_name sql ps true custom_time_limit page
        log_sql_errors w =
        (Returns {| rows := take cap fetched;
                    truncated := bool_decide (cap < length fetched);
                    res_description := description c |}, w') ∧
      take cap fetched = take cap (pending c)) ∧
   (∀ e, failure c = Some e → length (pending c) < cap + 1 →
      ∃ e', (execute env self db_name sql ps true custom_time_limit page
               log_sql_errors w).1 = Raises e')) ∧
  (failure c = None →
   execute env self db_name sql ps false custom_time_limit page
     log_sql_errors w =
     (Returns {| rows := pending c; truncated := false;
                 res_description := description c |}, w')) ∧
  (∀ e, failure c = Some e →
     ∃ e', (execute env self db_name sql ps false custom_time_limit page
              log_sql_errors w).1 = Raises e').
Proof.
  intros Hconn Hc max_rows cap.
  assert (row_cap self (page_size_or_default self page) = cap) as Hcap
    by done.
  split; [|split].
  - intros Hset.
    assert ((cap =? 0) = false) as Hnz.
    { apply Nat.eqb_neq. unfold cap. destruct (_ =? _); lia. }
    split.
    + intros Hread. exists (take (cap + 1) (pending c)).
      assert (take cap (take (cap + 1) (pending c)) = take cap (pending c))
        as Htake by (by rewrite take_take, Nat.min_l by lia).
      split; [done|]. split; [by apply fetchmany_enough|].
      split; [rewrite length_take; lia|]. split; [|done].
      rewrite (execute_on_connection _ _ _ _ _ _ _ _ _ _ Hconn).
      unfold sql_operation_in_thread, fetch_rows. rewrite Hc. cbn [bind].
      rewrite Hcap, Hnz. cbn [negb andb].
      rewrite (fetchmany_enough _ _ Hread). cbn [bind].
      do 3 f_equal. destruct (cap <? _) eqn:Hlt.
      * apply Nat.ltb_lt in Hlt. by rewrite bool_decide_eq_true_2.
      * apply Nat.ltb_ge in Hlt. rewrite bool_decide_eq_false_2; [done | lia].
    + intros e Hf Hshort.
      rewrite (execute_on_connection _ _ _ _ _ _ _ _ _ _ Hconn).
      apply (sql_operation_raises _ _ _ _ _ _ _ _ e).
      unfold fetch_rows. rewrite Hc. cbn [bind].
      rewrite Hcap, Hnz. cbn [negb andb].
      by rewrite (fetchmany_short _ _ e).
  - intros Hf. rewrite (execute_rows _ _ _ _ _ _ _ _ _ _ _ Hconn Hc Hf).
    by rewrite andb_false_r.
  - intros e Hf.
    rewrite (execute_on_connection _ _ _ _ _ _ _ _ _ _ Hconn).
    apply (sql_operation_raises _ _ _ _ _ _ _ _ e).
    unfold fetch_rows. rewrite Hc. cbn [bind]. rewrite andb_false_r.
    unfold fetchall. by rewrite Hf.
Qed.

(** C1, amended: with [max_rows = page_size = 10] the cap is 11, so a
    result set of 10 rows and one of 11 rows are both returned whole
    with [truncated = False]; a result set of 12 rows or more is
    returned as its first 11 rows with [truncated = True]. *)
Theorem truncation_boundary_at_ten (db_name sql : string)
    (ps : option params) (custom_time_limit : option Z) (page : option nat)
    (log_sql_errors : bool) (w w' : world) (conn : connection) (c : cursor) :
  max_returned_rows self = 10 →
  page_size_or_default self page = 10 →
  get_connection env self db_name w = (Returns conn, w') →
  cursor_execute conn sql (params_or_empty ps)
    (time_limit self custom_time_limit) = Returns c →
  failure c = None →
  ∃ r,
    execute env self db_name sql ps true custom_time_limit page
      log_sql_errors w = (Returns r, w') ∧
    rows r = take 11 (pending c) ∧
    truncated r = bool_decide (12 ≤ length (pending c)) ∧
    (length (pending c) = 10 → truncated r = false ∧ rows r = pending c) ∧
    (length (pending c) = 11 → truncated r = false ∧ rows r = pending c) ∧
    (12 ≤ length (pending c) → truncated r = true ∧ length (rows r) = 11).
Proof.
  intros Hmax Hpage Hconn Hc Hf.
  eexists. split.
  { rewrite (execute_rows _ _ _ _ _ _ _ _ _ _ _ Hconn Hc Hf).
    unfold row_cap. rewrite Hmax, Hpage. simpl. reflexivity. }
  simpl. split; [done|]. split; [done|]. repeat split.
  - rewrite bool_decide_eq_false_2; [done | lia].
  - by rewrite take_ge by lia.
  - rewrite bool_decide_eq_false_2; [done | lia].
  - by rewrite take_ge by lia.
  - by rewrite bool_decide_eq_true_2.
  - rewrite length_take. lia.
Qed.

End execute_facts.

Lemma execute_truncation_witness :
  let interrupted_after_12 :=
    Fixture.failing_after (Sample.numbered 12)
      (OperationalError ["interrupted"]) in
  execute Sample.env Sample.ds "db" "select n from t" None true None None true
    (Sample.worker interrupted_after_12) =
    (Returns {| rows := Sample.numbered 11; truncated := true;
                res_description := ["n"] |},
     Sample.worker interrupted_after_12) ∧
  (∃ e, (execute Sample.env Sample.ds "db" "select n from t" None false None
           None true (Sample.worker interrupted_after_12)).1 = Raises e) ∧
  execute Sample.env Sample.ds "db" "select n from t" None false None None true
    (Sample.worker (Sample.serving (Sample.numbered 12))) =
    (Returns {| rows := Sample.numbered 12; truncated := false;
                res_description := ["n"] |},
     Sample.worker (Sample.serving (Sample.numbered 12))).
Proof.
  intros conn.
  pose (c := {| pending := Sample.numbered 12;
                failure := Some (OperationalError ["interrupted"]);
                description := ["n"] |}).
  destruct (execute_truncation Sample.env Sample.ds "db" "select n from t"
              None None None true (Sample.worker conn) (Sample.worker conn)
              conn c eq_refl eq_refl) as (Htrunc & _ & Hfail).
  assert (0 < max_returned_rows Sample.ds) as Hset by (simpl; lia).
  destruct (Htrunc Hset) as [Hread _].
  assert (11 + 1 ≤ length (pending c)) as Hlong by (simpl; lia).
  destruct (Hread (or_intror Hlong)) as (fetched & -> & _ & _ & Hexec & _).
  split; [exact Hexec|]. split; [exact (Hfail _ eq_refl)|].
  pose (c' := {| pending := Sample.numbered 12; failure := None;
                 description := ["n"] |}).
  exact (proj1 (proj2 (execute_truncation Sample.env Sample.ds "db"
           "select n from t" None None None true
           (Sample.worker (Sample.serving (Sample.numbered 12)))
           (Sample.worker (Sample.serving (Sample.numbered 12)))
           (Sample.serving (Sample.numbered 12)) c' eq_refl eq_refl))
           eq_refl).
Defined.

Lemma truncation_boundary_at_ten_witness :
  ∃ r,
    execute Sample.env Sample.ds "db" "select n from t" None true None
      (Some 10) true (Sample.worker (Sample.serving (Sample.numbered 11))) =
      (Returns r, Sample.worker (Sample.serving (Sample.numbered 11))) ∧
    truncated r = false ∧ rows r = Sample.numbered 11.
Proof.
  pose (w := Sample.worker (Sample.serving (Sample.numbered 11))).
  pose (c := {| pending := Sample.numbered 11; failure := None;
                description := ["n"] |}).
  destruct (truncation_boundary_at_ten Sample.env Sample.ds "db"
              "select n from t" None None (Some 10) true w w
              (Sample.serving (Sample.numbered 11)) c
              eq_refl eq_refl eq_refl eq_refl eq_refl)
    as (r & Hexec & _ & _ & _ & H11 & _).
  exists r. split; [exact Hexec|]. exact (H11 eq_refl).
Defined.

(** C1 as stated fails: with [max_rows = page_size = 10], a result set of
    exactly 11 rows comes back whole, 11 rows, with [truncated = False],
    not as 10 rows with [truncated = True]. *)
Lemma execute_eleven_rows_not_truncated :
  ∃ r,
    execute Sample.env Sample.ds "db" "select n from t" None true None
      (Some 10) true (Sample.worker (Sample.serving (Sample.numbered 11))) =
      (Returns r, Sample.worker (Sample.serving (Sample.numbered 11))) ∧
    truncated r = false ∧ length (rows r) = 11 ∧
    ¬ (truncated r = true ∧ length (rows r) = 10).
Proof.
  eexists. split; [reflexivity|]. simpl.
  split; [done|]. split; [done|]. by intros [? _].
Qed.

(** ** Time limit *)

Section time_limit_facts.

Context (env : environment) (self : Datasette).

Lemma time_limit_custom (c : Z) :
  time_limit self (Some c) =
    if (c =? 0)%Z then sql_time_limit_ms self
    else Z.min c (sql_time_limit_ms self).
Proof.
  unfold time_limit. destruct (c =? 0)%Z; simpl; [done|].
  destruct (c <? sql_time_limit_ms self)%Z eqn:Hlt.
  - apply Z.ltb_lt in Hlt. lia.
  - apply Z.ltb_ge in Hlt. lia.
Qed.

(** C5, amended: the limit in force is the smaller of the custom limit
    and the default when the call gives a custom limit other than zero,
    and the default when it gives none or zero; with a default of 1000 a
    custom limit of 500 gives 500 and one of 2000 gives 1000.  That
    limit is the one the statement runs under: on a connection that
    reports the limit it is run with, [execute] returns it. *)
Theorem time_limit_min (custom_time_limit : option Z) :
  let limit :=
    match custom_time_limit with
    | Some c =>
        if (c =? 0)%Z then sql_time_limit_ms self
        else Z.min c (sql_time_limit_ms self)
    | None => sql_time_limit_ms self
    end in
  time_limit self custom_time_limit = limit ∧
  (sql_time_limit_ms self = 1000%Z →
   time_limit self (Some 500%Z) = 500%Z ∧
   time_limit self (Some 2000%Z) = 1000%Z) ∧
  ∀ db_name sql ps truncate page log_sql_errors w w',
    get_connection env self db_name w = (Returns Sample.limit_probe, w') →
    execute env self db_name sql ps truncate custom_time_limit page
      log_sql_errors w =
      (Returns {| rows := [[SInt limit]]; truncated := false;
                  res_description := ["ms"] |}, w').
Proof.
  intros limit.
  assert (time_limit self custom_time_limit = limit) as Hlimit.
  { destruct custom_time_limit as [c|]; [apply time_limit_custom | done]. }
  split; [done|]. split.
  - intros Hdefault. rewrite !time_limit_custom, Hdefault. done.
  - intros db_name sql ps truncate page log_sql_errors w w' Hconn.
    rewrite (execute_on_connection _ _ _ _ _ _ _ _ _ _ _ _ Hconn).
    unfold sql_operation_in_thread, fetch_rows. simpl. rewrite Hlimit.
    destruct (row_cap self (page_size_or_default self page)) as [|[|cap]],
      truncate; done.
Qed.

(** C10, amended: with no custom limit and with a custom limit of zero
    the default applies; so it does with a custom limit equal to the
    default.  The smaller of the custom limit and the default is taken
    for every custom limit that is not zero, negative ones included, and
    only for those: the limit in force differs from the default only
    for a custom limit that is not zero and below the default. *)
Theorem time_limit_zero_or_none :
  time_limit self None = sql_time_limit_ms self ∧
  time_limit self (Some 0%Z) = sql_time_limit_ms self ∧
  time_limit self (Some (sql_time_limit_ms self)) = sql_time_limit_ms self ∧
  (∀ custom_time_limit,
     time_limit self custom_time_limit = sql_time_limit_ms self ∨
     ∃ c, custom_time_limit = Some c ∧ c ≠ 0%Z ∧
          (c < sql_time_limit_ms self)%Z ∧
          time_limit self custom_time_limit = c) ∧
  ∀ c, c ≠ 0%Z →
    time_limit self (Some c) = Z.min c (sql_time_limit_ms self).
Proof.
  split; [done|]. split; [done|]. split; [|split].
  - rewrite time_limit_custom. destruct (_ =? _)%Z; lia.
  - intros [c|]; [|by left]. rewrite time_limit_custom.
    destruct (c =? 0)%Z eqn:Hz; [by left|].
    apply Z.eqb_neq in Hz.
    destruct (decide (c < sql_time_limit_ms self)%Z) as [Hlt|Hge].
    + right. exists c. repeat split; [done..|lia].
    + left. lia.
  - intros c Hc. rewrite time_limit_custom.
    by rewrite (proj2 (Z.eqb_neq _ _) Hc).
Qed.

End time_limit_facts.

Lemma time_limit_zero_or_none_witness :
  time_limit Sample.ds (Some 0%Z) = 1000%Z ∧
  time_limit Sample.ds (Some 1000%Z) = 1000%Z ∧
  time_limit Sample.ds (Some 500%Z) = Z.min 500 1000 ∧
  time_limit Sample.ds (Some (-1)%Z) = Z.min (-1) 1000.
Proof.
  destruct (time_limit_zero_or_none Sample.ds)
    as (_ & Hzero & Hequal & _ & Hmin).
  split; [exact Hzero|]. split; [exact Hequal|].
  split; [exact (Hmin 500%Z ltac:(discriminate)) |
          exact (Hmin (-1)%Z ltac:(discriminate))].
Defined.

(** C10 as stated fails: the custom limit -1 is not positive, and yet
    the smaller of it and the default of 1000 ms is taken: the statement
    runs under a limit of -1 ms. *)
Lemma time_limit_negative_is_taken :
  ¬ (0 < -1)%Z ∧
  time_limit Sample.ds (Some (-1)%Z) = Z.min (-1) (sql_time_limit_ms Sample.ds) ∧
  time_limit Sample.ds (Some (-1)%Z) ≠ sql_time_limit_ms Sample.ds ∧
  execute Sample.env Sample.ds "db" "select 1" None false (Some (-1)%Z) None
    true (Sample.worker Sample.limit_probe) =
    (Returns {| rows := [[SInt (-1)]]; truncated := false;
                res_description := ["ms"] |},
     Sample.worker Sample.limit_probe).
Proof. split; [done|]. split; [done|]. split; done. Qed.

Lemma time_limit_min_witness :
  time_limit Sample.ds (Some 500%Z) = 500%Z ∧
  time_limit Sample.ds (Some 2000%Z) = 1000%Z ∧
  execute Sample.env Sample.ds "db" "select 1" None false (Some 500%Z) None
    true (Sample.worker Sample.limit_probe) =
    (Returns {| rows := [[SInt 500]]; truncated := false;
                res_description := ["ms"] |},
     Sample.worker Sample.limit_probe).
Proof.
  destruct (time_limit_min Sample.env Sample.ds (Some 500%Z))
    as (_ & Hpairs & Hrun).
  destruct (Hpairs eq_refl) as [H500 H2000].
  split; [exact H500|]. split; [exact H2000|].
  exact (Hrun "db" "select 1" None false None true
           (Sample.worker Sample.limit_probe)
           (Sample.worker Sample.limit_probe) eq_refl).
Defined.

(** C5 as stated fails: a call that gives the custom limit 0 runs under
    the default of 1000 ms, not under [min(0, 1000) = 0]. *)
Lemma time_limit_zero_is_not_min :
  time_limit Sample.ds (Some 0%Z) = 1000%Z ∧
  time_limit Sample.ds (Some 0%Z) ≠ Z.min 0 (sql_time_limit_ms Sample.ds) ∧
  execute Sample.env Sample.ds "db" "select 1" None false (Some 0%Z) None
    true (Sample.worker Sample.limit_probe) =
    (Returns {| rows := [[SInt 1000]]; truncated := false;
                res_description := ["ms"] |},
     Sample.worker Sample.limit_probe).
Proof. split; [done|]. split; done. Qed.

(** ** Operational errors *)

Section error_facts.

Context (env : environment) (self : Datasette).

(** C6: when the statement fails with an operational error, [execute]
    raises [QueryInterrupted], holding that error, the SQL text and the
    parameters of the call, exactly when the error's arguments are
    [("interrupted",)]; any other operational error is raised again as
    it is, after one line is printed if [log_sql_errors] is set. *)
Theorem execute_operational_error (db_name sql : string) (ps : option params)
    (truncate : bool) (custom_time_limit : option Z) (page : option nat)
    (log_sql_errors : bool) (w w' : world) (conn : connection)
    (args : list string) :
  get_connection env self db_name w = (Returns conn, w') →
  fetch_rows self conn sql ps truncate (page_size_or_default self page)
    (time_limit self custom_time_limit) = Raises (OperationalError args) →
  let r := execute env self db_name sql ps truncate custom_time_limit page
             log_sql_errors w in
  (args = ["interrupted"] →
   r = (Raises (QueryInterrupted (OperationalError args) sql ps), w')) ∧
  (args ≠ ["interrupted"] →
   r.1 = Raises (OperationalError args) ∧
   connections r.2 = connections w' ∧
   stdout r.2 =
     if log_sql_errors then
       stdout w' ++ [{| line_conn := conn_name conn; line_sql := sql;
                        line_params := ps;
                        line_error := OperationalError args |}]
     else stdout w') ∧
  ((∃ e sql' ps', r.1 = Raises (QueryInterrupted e sql' ps')) ↔
   args = ["interrupted"]).
Proof.
  intros Hconn Hfetch r. subst r.
  rewrite (execute_on_connection _ _ _ _ _ _ _ _ _ _ _ _ Hconn).
  unfold sql_operation_in_thread. rewrite Hfetch.
  destruct (decide (args = ["interrupted"])) as [Heq|Hne].
  - rewrite bool_decide_eq_true_2 by done. split; [done|]. split; [done|].
    split; [done|]. intros _. eauto.
  - rewrite bool_decide_eq_false_2 by done. split; [done|]. split.
    + intros _. by destruct log_sql_errors.
    + split; [|done]. by intros (? & ? & ? & ?).
Qed.

End error_facts.

Lemma execute_operational_error_witness :
  execute Sample.env Sample.ds "db" "select n from t" (Some (ParamList []))
    false None None true (Sample.worker Sample.interrupted) =
    (Raises (QueryInterrupted (OperationalError ["interrupted"])
               "select n from t" (Some (ParamList []))),
     Sample.worker Sample.interrupted) ∧
  (execute Sample.env Sample.ds "db" "select n from people" None
     false None None true (Sample.worker Sample.broken)).1 =
    Raises (OperationalError ["no such table: people"]).
Proof.
  split.
  - exact (proj1 (execute_operational_error Sample.env Sample.ds "db"
             "select n from t" (Some (ParamList [])) false None None true
             (Sample.worker Sample.interrupted)
             (Sample.worker Sample.interrupted) Sample.interrupted
             ["interrupted"] eq_refl eq_refl) eq_refl).
  - refine (proj1 (proj1 (proj2 (execute_operational_error Sample.env
             Sample.ds "db" "select n from people" None false None None true
             (Sample.worker Sample.broken) (Sample.worker Sample.broken)
             Sample.broken ["no such table: people"] eq_refl eq_refl)) _)).
    discriminate.
Defined.

(** ** Foreign-key labels *)

Section label_facts.

Context (env : environment) (self : Datasette).

Lemma raw_labels_from (column : string) (values : list sqlval)
    (m : gmap (string * sqlval) sqlval) (c : string) (v : sqlval) :
  foldl (λ m value, <[(column, value) := SText (py_str value)]> m) m values
    !! (c, v) =
    if decide (c = column ∧ v ∈ values) then Some (SText (py_str v))
    else m !! (c, v).
Proof.
  revert m. induction values as [|x values IH]; intros m; simpl.
  - case_decide as H; [|done]. destruct H as [_ H]. by apply elem_of_nil in H.
  - rewrite IH. destruct (decide (c = column ∧ v ∈ values)) as [H|H].
    + rewrite decide_True; [done|]. destruct H. split; [done|]. by right.
    + destruct (decide ((column, x) = (c, v))) as [[= -> ->]|Hne].
      * rewrite lookup_insert_eq, decide_True; [done|]. split; [done|]. by left.
      * rewrite lookup_insert_ne by done. rewrite decide_False; [done|].
        intros [-> [->|Hin]%elem_of_cons]; [done|]. by apply H.
Qed.

Lemma raw_labels_lookup (column : string) (values : list sqlval)
    (c : string) (v : sqlval) :
  raw_labels column values !! (c, v) =
    if decide (c = column ∧ v ∈ values) then Some (SText (py_str v)) else None.
Proof. unfold raw_labels. by rewrite raw_labels_from, lookup_empty. Qed.

(** C7: when the one query for the labels ends in [QueryInterrupted],
    the result is the empty mapping; when it ends in any other
    exception, that exception is raised. *)
Theorem expand_foreign_keys_interrupted (database table column : string)
    (values : list sqlval) (w w' : world) (db : Database) (fk : foreign_key)
    (others : list foreign_key) (label_column : string) (e : exn) :
  databases self !! database = Some db →
  filter (λ fk, fk_column fk = column) (foreign_keys_for_table db table) =
    fk :: others →
  label_column_for_table db (fk_other_table fk) = Some label_column →
  label_column ≠ "" →
  execute env self database
    (label_sql env fk label_column (size (list_to_set values : gset sqlval)))
    (Some (ParamList (elements (list_to_set values : gset sqlval))))
    false None None true w = (Raises e, w') →
  let r := expand_foreign_keys env self database table column values w in
  ((∃ e0 sql ps, e = QueryInterrupted e0 sql ps) → r = (Returns ∅, w')) ∧
  ((∀ e0 sql ps, e ≠ QueryInterrupted e0 sql ps) → r = (Raises e, w')).
Proof.
  intros Hdb Hfk Hlabel Hne Hexec r. subst r. unfold expand_foreign_keys.
  rewrite Hdb. simpl. rewrite Hfk, Hlabel.
  destruct label_column as [|a label_column]; [done|].
  rewrite Hexec. split.
  - by intros (e0 & sql & ps & ->).
  - intros Hother. destruct e; try done. by destruct (Hother e sql ps).
Qed.

(** C8: for a column that is not a foreign key of the table the result
    is the empty mapping; for a foreign key whose referenced table has
    no label column the result maps [(column, v)] to [str(v)] for every
    [v] among the values, and holds nothing else. *)
Theorem expand_foreign_keys_without_labels (database table column : string)
    (values : list sqlval) (w : world) (db : Database) :
  databases self !! database = Some db →
  ((∀ fk, fk ∈ foreign_keys_for_table db table → fk_column fk ≠ column) →
   expand_foreign_keys env self database table column values w =
     (Returns ∅, w)) ∧
  (∀ fk others,
     filter (λ fk, fk_column fk = column) (foreign_keys_for_table db table) =
       fk :: others →
     label_column_for_table db (fk_other_table fk) = None ∨
     label_column_for_table db (fk_other_table fk) = Some "" →
     ∃ labels,
       expand_foreign_keys env self database table column values w =
         (Returns labels, w) ∧
       ∀ c v,
         labels !! (c, v) =
           if decide (c = column ∧ v ∈ values) then Some (SText (py_str v))
           else None).
Proof.
  intros Hdb. unfold expand_foreign_keys. rewrite Hdb. simpl. split.
  - intros Hnone.
    destruct (filter _ _) as [|fk others] eqn:Hfk; [done|].
    assert (fk ∈ filter (λ fk, fk_column fk = column)
                   (foreign_keys_for_table db table)) as Hin
      by (rewrite Hfk; left).
    apply list_elem_of_filter in Hin as [Hcol Hin].
    by destruct (Hnone fk Hin).
  - intros fk others Hfk Hlabel. rewrite Hfk.
    assert (fk_column fk = column) as Hcol.
    { assert (fk ∈ filter (λ fk, fk_column fk = column)
                     (foreign_keys_for_table db table)) as Hin
        by (rewrite Hfk; left).
      by apply list_elem_of_filter in Hin as [Hcol Hin]. }
    exists (raw_labels column values). split.
    + rewrite Hcol. by destruct Hlabel as [-> | ->].
    + apply raw_labels_lookup.
Qed.

End label_facts.

Lemma expand_foreign_keys_interrupted_witness :
  expand_foreign_keys Sample.env Sample.ds "db" "t" "owner"
    [SInt 1; SInt 2; SInt 1] (Sample.worker Sample.interrupted) =
    (Returns ∅, Sample.worker Sample.interrupted) ∧
  (expand_foreign_keys Sample.env Sample.ds "db" "t" "owner"
     [SInt 1; SInt 2; SInt 1] (Sample.worker Sample.broken)).1 =
    Raises (OperationalError ["no such table: people"]).
Proof.
  pose (fk := {| fk_column := "owner"; fk_other_table := "people";
                 fk_other_column := "id" |}).
  split.
  - refine (proj1 (expand_foreign_keys_interrupted Sample.env Sample.ds
             "db" "t" "owner" [SInt 1; SInt 2; SInt 1]
             (Sample.worker Sample.interrupted)
             (Sample.worker Sample.interrupted) Sample.db fk [] "name" _
             eq_refl eq_refl eq_refl _ eq_refl) _);
      [discriminate | eauto].
  - refine (f_equal fst (proj2 (expand_foreign_keys_interrupted Sample.env
             Sample.ds "db" "t" "owner" [SInt 1; SInt 2; SInt 1]
             (Sample.worker Sample.broken) _ Sample.db fk [] "name" _
             eq_refl eq_refl eq_refl _ eq_refl) _));
      [discriminate | discriminate].
Defined.

Lemma expand_foreign_keys_without_labels_witness :
  expand_foreign_keys Sample.env Sample.ds "db" "t" "n" [SInt 1; SText "a"]
    (Sample.worker Sample.broken) = (Returns ∅, Sample.worker Sample.broken) ∧
  ∃ labels,
    expand_foreign_keys Sample.env Sample.ds "db" "t" "thing"
      [SInt 7; SText "a"; SNull; SInt 7] (Sample.worker Sample.broken) =
      (Returns labels, Sample.worker Sample.broken) ∧
    labels !! ("thing", SInt 7) = Some (SText "7") ∧
    labels !! ("thing", SText "a") = Some (SText "a") ∧
    labels !! ("thing", SNull) = Some (SText "None") ∧
    labels !! ("thing", SInt 8) = None.
Proof.
  split.
  - refine (proj1 (expand_foreign_keys_without_labels Sample.env Sample.ds
             "db" "t" "n" [SInt 1; SText "a"] (Sample.worker Sample.broken)
             Sample.db eq_refl) _).
    intros fk Hin. simpl in Hin.
    apply elem_of_cons in Hin as [-> | Hin]; [discriminate|].
    apply elem_of_cons in Hin as [-> | Hin]; [discriminate|].
    by apply elem_of_nil in Hin.
  - destruct (proj2 (expand_foreign_keys_without_labels Sample.env Sample.ds
               "db" "t" "thing" [SInt 7; SText "a"; SNull; SInt 7]
               (Sample.worker Sample.broken) Sample.db eq_refl)
               {| fk_column := "thing"; fk_other_table := "things";
                  fk_other_column := "id" |} [] eq_refl (or_introl eq_refl))
      as (labels & Hrun & Hlabels).
    exists labels. split; [exact Hrun|].
    rewrite !Hlabels. repeat split.
Defined.

(** The labels of a batch that succeeds, for comparison. *)
Example expand_foreign_keys_labelled :
  expand_foreign_keys Sample.env Sample.ds "db" "t" "owner"
    [SInt 1; SInt 2; SInt 1]
    (Sample.worker (Sample.serving [[SInt 1; SText "Ann"]; [SInt 2; SText "Bo"]])) =
    (Returns {[ ("owner", SInt 1) := SText "Ann"; ("owner", SInt 2) := SText "Bo" ]},
     Sample.worker (Sample.serving [[SInt 1; SText "Ann"]; [SInt 2; SText "Bo"]])).
Proof. vm_compute. reflexivity. Qed.

(** * Further properties *)

(** ** Connections of a worker *)

Section connection_facts.

Context (env : environment) (self : Datasette).

Lemma getattr_connections_None (db_name : string) (w : world) :
  getattr_connections env db_name w = None → connections w !! db_name = None.
Proof.
  unfold getattr_connections. case_bool_decide as Hdict.
  - case_bool_decide as Hempty; [|done]. intros _.
    apply not_elem_of_dom. rewrite Hempty. apply not_elem_of_empty.
  - by destruct (connections w !! db_name).
Qed.

Lemma getattr_connections_stored (db_name : string) (w : world)
    (conn : connection) :
  db_name ≠ "__dict__" →
  connections w !! db_name = Some conn →
  getattr_connections env db_name w = Some conn.
Proof.
  intros Hdict Hheld. unfold getattr_connections.
  by rewrite bool_decide_eq_false_2, Hheld.
Qed.

Lemma getattr_connections_plain (db_name : string) (w : world) :
  db_name ≠ "__dict__" → db_name ∉ local_attributes env →
  getattr_connections env db_name w = connections w !! db_name.
Proof.
  intros Hdict Hplain. unfold getattr_connections.
  rewrite bool_decide_eq_false_2 by done.
  destruct (connections w !! db_name); [done|].
  by rewrite bool_decide_eq_false_2.
Qed.

Lemma get_connection_inv (db_name : string) (w w' : world)
    (o : outcome connection) :
  get_connection env self db_name w = (o, w') →
  (∃ conn, o = Returns conn ∧
           getattr_connections env db_name w = Some conn ∧ w' = w) ∨
  (∃ conn, o = Returns conn ∧ getattr_connections env db_name w = None ∧
           db_name ≠ "__dict__" ∧ w' = set_connection db_name conn w) ∨
  (∃ e, o = Raises e ∧ getattr_connections env db_name w = None ∧ w' = w ∧
        (databases self !! db_name = None → e = KeyError db_name)).
Proof.
  unfold get_connection. intros Hget.
  destruct (getattr_connections env db_name w) as [conn|] eqn:Hfound.
  { injection Hget as <- <-. left. eauto. }
  right. destruct (databases self !! db_name) as [db|] eqn:Hdb.
  - destruct (conn ←! _; prepare_connection env conn) as [conn|e].
    + case_bool_decide as Hdict; injection Hget as <- <-.
      * right. eexists. repeat split; done.
      * left. exists conn. eauto.
    + injection Hget as <- <-. right. exists e. repeat split; done.
  - injection Hget as <- <-. right. eexists. repeat split; done.
Qed.

(** The stored connections after a request for a connection: as before,
    but for the connection stored under the name asked for. *)
Lemma get_connection_stored (db_name : string) (w w' : world)
    (o : outcome connection) :
  get_connection env self db_name w = (o, w') →
  (∀ other, other ≠ db_name →
     connections w' !! other = connections w !! other) ∧
  (∀ conn, connections w !! db_name = Some conn →
     connections w' !! db_name = Some conn) ∧
  (∀ other, other ≠ db_name → other ≠ "__dict__" →
     getattr_connections env other w' = getattr_connections env other w) ∧
  stdout w' = stdout w.
Proof.
  intros Hget.
  apply get_connection_inv in Hget
    as [(c & _ & _ & ->) | [(c & _ & Hnone & _ & ->) | (e & _ & _ & -> & _)]];
    [done| |done].
  apply getattr_connections_None in Hnone. simpl.
  split; [|split; [|split]]; [| congruence | | done].
  - intros other Hne. by rewrite lookup_insert_ne.
  - intros other Hne Hdict. unfold getattr_connections. simpl.
    rewrite bool_decide_eq_false_2 by done.
    by rewrite lookup_insert_ne.
Qed.

(** What [execute] does with an object that is not a connection. *)
Lemma sql_operation_not_a_connection (sql : string) (ps : option params)
    (truncate : bool) (custom_time_limit : option Z) (page_size : nat)
    (log_sql_errors : bool) (name : string) (w : world) :
  sql_operation_in_thread self sql ps truncate custom_time_limit page_size
    log_sql_errors (not_a_connection name) w = (Raises AttributeError, w).
Proof. reflexivity. Qed.

(** X1: a connection that a worker has opened for a database, whose
    name is not the name of an attribute that the thread-local object
    has of itself, is stored under the name: the next request for that
    name returns the same connection and changes nothing.  The
    connections stored under other names and the printed lines are as
    before, and so is what a request finds under any other name, except
    [__dict__]: that name now finds the dictionary of the stored
    connections, which is not a connection. *)
Theorem get_connection_cached (db_name : string) (w w' : world)
    (conn : connection) :
  db_name ≠ "__dict__" → db_name ∉ local_attributes env →
  get_connection env self db_name w = (Returns conn, w') →
  connections w' !! db_name = Some conn ∧
  get_connection env self db_name w' = (Returns conn, w') ∧
  (∀ other, other ≠ db_name →
     connections w' !! other = connections w !! other) ∧
  (∀ other, other ≠ db_name → other ≠ "__dict__" →
     getattr_connections env other w' = getattr_connections env other w) ∧
  getattr_connections env "__dict__" w' = Some (not_a_connection "__dict__") ∧
  stdout w' = stdout w.
Proof.
  intros Hdict Hplain Hget.
  destruct (get_connection_stored _ _ _ _ Hget) as (Hother & _ & Hfind & Hout).
  assert (connections w' !! db_name = Some conn) as Hheld.
  { apply get_connection_inv in Hget
      as [(c & [= <-] & Hc & ->) | [(c & [= <-] & _ & _ & ->) | (e & [=] & _)]].
    - by rewrite getattr_connections_plain in Hc.
    - simpl. apply lookup_insert_eq. }
  split; [done|]. split; [|split; [done|split; [done|split; [|done]]]].
  - unfold get_connection. by rewrite (getattr_connections_stored _ _ conn).
  - unfold getattr_connections. simpl. rewrite bool_decide_eq_false_2; [done|].
    intros Hempty. apply (not_elem_of_empty (C:=gset string) db_name).
    rewrite <- Hempty. apply elem_of_dom. eauto.
Qed.

(** X2: for a name under which the worker has no connection stored and
    that is not a database of the instance, [execute] raises
    [KeyError] with the name, unless the name is the name of an
    attribute that the thread-local object has of itself: then that
    attribute is taken for the connection and the call raises
    [AttributeError], as it does for [__dict__] once any connection is
    stored.  The state of the worker is as before in each case. *)
Theorem execute_without_database (db_name sql : string) (ps : option params)
    (truncate : bool) (custom_time_limit : option Z) (page : option nat)
    (log_sql_errors : bool) (w : world) :
  connections w !! db_name = None →
  databases self !! db_name = None →
  let r := execute env self db_name sql ps truncate custom_time_limit page
             log_sql_errors w in
  (db_name ≠ "__dict__" → db_name ∉ local_attributes env →
   r = (Raises (KeyError db_name), w)) ∧
  (db_name ≠ "__dict__" → db_name ∈ local_attributes env →
   r = (Raises AttributeError, w)) ∧
  (db_name = "__dict__" →
   r = (Raises (if bool_decide (dom (connections w) = ∅)
                then KeyError db_name else AttributeError), w)).
Proof.
  intros Hnone Hdb r. subst r.
  unfold execute, execute_against_connection_in_thread, get_connection,
    getattr_connections.
  rewrite Hnone, Hdb. split; [|split].
  - intros Hdict Hplain. by rewrite !bool_decide_eq_false_2 by done.
  - intros Hdict Hattr.
    by rewrite bool_decide_eq_false_2, bool_decide_eq_true_2 by done.
  - intros Hdict. rewrite bool_decide_eq_true_2 by done.
    by case_bool_decide.
Qed.

(** X3: a call of [execute] stores at most the connection it opens for
    its own database: the connections stored under other names are as
    before, a connection already stored under its own name is not
    replaced, and what a request finds under any other name is as
    before, [__dict__] excepted.  The call prints at most one line; it
    prints one, which holds the statement, the parameters and the error,
    only if logging is on and the call ends in an operational error
    other than an interruption. *)
Theorem execute_frame (db_name sql : string) (ps : option params)
    (truncate : bool) (custom_time_limit : option Z) (page : option nat)
    (log_sql_errors : bool) (w : world) :
  let r := execute env self db_name sql ps truncate custom_time_limit page
             log_sql_errors w in
  (∀ other, other ≠ db_name →
     connections r.2 !! other = connections w !! other) ∧
  (∀ conn, connections w !! db_name = Some conn →
     connections r.2 !! db_name = Some conn) ∧
  (∀ other, other ≠ db_name → other ≠ "__dict__" →
     getattr_connections env other r.2 = getattr_connections env other w) ∧
  (stdout r.2 = stdout w ∨
   ∃ line args,
     stdout r.2 = stdout w ++ [line] ∧ log_sql_errors = true ∧
     r.1 = Raises (OperationalError args) ∧ args ≠ ["interrupted"] ∧
     line_sql line = sql ∧ line_params line = ps ∧
     line_error line = OperationalError args).
Proof.
  intros r. subst r. unfold execute, execute_against_connection_in_thread.
  destruct (get_connection env self db_name w) as [o w1] eqn:Hget.
  destruct (get_connection_stored _ _ _ _ Hget) as (Hother & Hown & Hfind & Hout).
  destruct o as [conn|e].
  2:{ simpl. split; [done|]. split; [done|]. split; [done|]. left. done. }
  assert (∀ w2 : world, connections w2 = connections w1 →
            ∀ other, other ≠ db_name → other ≠ "__dict__" →
            getattr_connections env other w2 = getattr_connections env other w)
    as Hsame.
  { intros w2 Hw2 other Hne Hdict. rewrite <- (Hfind other) by done.
    unfold getattr_connections. by rewrite Hw2. }
  unfold sql_operation_in_thread.
  destruct (fetch_rows _ _ _ _ _ _ _) as [[[c rs] t]|e]; simpl.
  { destruct truncate; simpl; (split; [done|]); (split; [done|]);
      (split; [done|]); by left. }
  destruct e; simpl;
    try (split; [done|]; split; [done|]; split; [done|]; by left).
  destruct (bool_decide (args = ["interrupted"])) eqn:Hint; simpl.
  { split; [done|]. split; [done|]. split; [done|]. by left. }
  apply bool_decide_eq_false in Hint.
  destruct log_sql_errors; simpl.
  - split; [done|]. split; [done|]. split; [by apply Hsame|]. right.
    eexists _, args. rewrite Hout. repeat split; done.
  - split; [done|]. split; [done|]. split; [done|]. by left.
Qed.

(** X4: whatever the driver does, a result of [execute] without
    [truncate] is never marked truncated, and a result with [truncate]
    and a row cap has at most [max_returned_rows + 1] rows, and at least
    [max_returned_rows] rows when it is marked truncated. *)
Theorem execute_row_bound (db_name sql : string) (ps : option params)
    (truncate : bool) (custom_time_limit : option Z) (page : option nat)
    (log_sql_errors : bool) (w w' : world) (r : Results) :
  execute env self db_name sql ps truncate custom_time_limit page
    log_sql_errors w = (Returns r, w') →
  (truncate = false → truncated r = false) ∧
  (truncate = true → 0 < max_returned_rows self →
   length (rows r) ≤ max_returned_rows self + 1 ∧
   (truncated r = true → max_returned_rows self ≤ length (rows r))).
Proof.
  unfold execute, execute_against_connection_in_thread.
  destruct (get_connection env self db_name w) as [[conn|e] w1]; [|done].
  unfold sql_operation_in_thread, fetch_rows.
  destruct (cursor_execute conn sql _ _) as [c|e]; simpl.
  2:{ destruct e; try done. by destruct (bool_decide _), log_sql_errors. }
  set (cap := row_cap self (page_size_or_default self page)).
  assert (max_returned_rows self ≤ cap ≤ max_returned_rows self + 1) as Hcap.
  { unfold cap, row_cap. destruct (_ =? _); lia. }
  destruct truncate; simpl.
  - destruct (negb (cap =? 0)) eqn:Hz; simpl.
    + destruct (fetchmany c (cap + 1)) as [rs|e]; simpl.
      * intros [= <- <-]. simpl. split; [done|]. intros _ _.
        rewrite length_take. split; [lia|].
        intros Hlt%Nat.ltb_lt. lia.
      * destruct e; try done. by destruct (bool_decide _).
    + apply negb_false_iff, Nat.eqb_eq in Hz.
      destruct (fetchall c) as [rs|e]; simpl.
      * intros [= <- <-]. simpl. split; [done|]. intros _ ?. lia.
      * destruct e; try done. by destruct (bool_decide _).
  - rewrite andb_false_r.
    destruct (fetchall c) as [rs|e]; simpl.
    + intros [= <- <-]. by split.
    + destruct e; try done. by destruct (bool_decide _).
Qed.

(** X5: no custom time limit puts the limit in force above the default
    of the instance. *)
Theorem time_limit_at_most_default (custom_time_limit : option Z) :
  (time_limit self custom_time_limit ≤ sql_time_limit_ms self)%Z.
Proof.
  unfold time_limit. destruct custom_time_limit as [c|]; [|done].
  destruct (negb (c =? 0)%Z && (c <? sql_time_limit_ms self)%Z) eqn:H; [|done].
  apply andb_true_iff in H as [_ H%Z.ltb_lt]. lia.
Qed.

End connection_facts.

Lemma get_connection_cached_witness :
  ∃ conn w',
    get_connection Fixture.env Sample.ds "db" Fixture.idle = (Returns conn, w') ∧
    conn_name conn = "file:db.db?mode=ro" ∧
    connections w' !! "db" = Some conn ∧
    get_connection Fixture.env Sample.ds "db" w' = (Returns conn, w') ∧
    getattr_connections Fixture.env "__dict__" w' =
      Some (not_a_connection "__dict__") ∧
    getattr_connections Fixture.env "__dict__" Fixture.idle = None.
Proof.
  eexists _, _. split; [reflexivity|]. split; [reflexivity|].
  destruct (get_connection_cached Fixture.env Sample.ds "db" Fixture.idle
              _ _ ltac:(discriminate)
              ltac:(apply (proj1 (bool_decide_eq_false _)); reflexivity) eq_refl)
    as (Hheld & Hagain & _ & _ & Hdict & _).
  split; [exact Hheld|]. split; [exact Hagain|].
  split; [exact Hdict | reflexivity].
Defined.

Lemma execute_without_database_witness :
  execute Sample.env Sample.ds "other" "select 1" None false None None true
    Fixture.idle = (Raises (KeyError "other"), Fixture.idle) ∧
  execute Sample.env Sample.ds "__class__" "select 1" None false None None true
    Fixture.idle = (Raises AttributeError, Fixture.idle) ∧
  execute Sample.env Sample.ds "__dict__" "select 1" None false None None true
    Fixture.idle = (Raises (KeyError "__dict__"), Fixture.idle) ∧
  execute Sample.env Sample.ds "__dict__" "select 1" None false None None true
    (Sample.worker (Sample.serving [])) =
    (Raises AttributeError, Sample.worker (Sample.serving [])).
Proof.
  assert ("other" ∉ local_attributes Sample.env) as Hplain
    by (apply (proj1 (bool_decide_eq_false _)); reflexivity).
  assert ("__class__" ∈ local_attributes Sample.env) as Hattr
    by (apply (proj1 (bool_decide_eq_true _)); reflexivity).
  split; [|split; [|split]].
  - exact (proj1 (execute_without_database Sample.env Sample.ds "other"
             "select 1" None false None None true Fixture.idle eq_refl eq_refl)
             ltac:(discriminate) Hplain).
  - exact (proj1 (proj2 (execute_without_database Sample.env Sample.ds
             "__class__" "select 1" None false None None true Fixture.idle
             eq_refl eq_refl)) ltac:(discriminate) Hattr).
  - exact (proj2 (proj2 (execute_without_database Sample.env Sample.ds
             "__dict__" "select 1" None false None None true Fixture.idle
             eq_refl eq_refl)) eq_refl).
  - exact (proj2 (proj2 (execute_without_database Sample.env Sample.ds
             "__dict__" "select 1" None false None None true
             (Sample.worker (Sample.serving [])) eq_refl eq_refl)) eq_refl).
Defined.

Lemma execute_row_bound_witness :
  ∃ r w',
    execute Sample.env Sample.ds "db" "select n from t" None true None None
      true (Sample.worker (Sample.serving (Sample.numbered 40))) =
      (Returns r, w') ∧
    length (rows r) ≤ 11 ∧ truncated r = true.
Proof.
  eexists _, _. split; [reflexivity|].
  destruct (execute_row_bound Sample.env Sample.ds "db" "select n from t"
              None true None None true
              (Sample.worker (Sample.serving (Sample.numbered 40))) _ _
              eq_refl) as [_ Hbound].
  destruct (Hbound eq_refl ltac:(simpl; lia)) as [Hle _].
  split; [exact Hle | reflexivity].
Defined.

(** ** More on the metadata cascade *)

Section cascade_facts.

Context (self : Datasette).

Lemma databases_of_returns :
  databases_of self =
    Returns (or_empty (default VNone (_metadata self !! "databases"))).
Proof. reflexivity. Qed.

Lemma or_empty_dict (d : gmap string value) : or_empty (VDict d) = VDict d.
Proof.
  unfold or_empty. simpl. case_bool_decide as Hd; [|done].
  apply dom_empty_iff_L in Hd. by subst d.
Qed.

Lemma global_search_list (fallback : bool) :
  search_list self None None fallback = Returns [VDict (_metadata self)].
Proof.
  unfold search_list. rewrite databases_of_returns. simpl. by destruct fallback.
Qed.

Lemma metadata_global_key (key : string) (fallback : bool) :
  metadata self (Some key) None None fallback =
    Returns (default VNone (_metadata self !! key)).
Proof.
  unfold metadata. rewrite global_search_list. simpl.
  by destruct (_metadata self !! key).
Qed.

(** X6: a lookup at the global scope never fails, whatever the document
    holds: with a key it returns the value of the key in the document,
    [None] if there is none, and without a key the document itself; the
    fallback flag makes no difference. *)
Theorem metadata_global (key : string) (fallback : bool) :
  metadata self (Some key) None None fallback =
    Returns (default VNone (_metadata self !! key)) ∧
  metadata self None None None fallback = Returns (VDict (_metadata self)).
Proof.
  split; [apply metadata_global_key|].
  unfold metadata. rewrite global_search_list. simpl.
  by rewrite (right_id_L ∅ (∪)).
Qed.

(** X7: a database that the document does not list is an empty scope,
    not an error: with fallback a keyed lookup in it, or in any table of
    it, returns the global value, and without fallback it returns
    [None]. *)
Theorem metadata_unknown_database (key database : string)
    (table : option string) (dbs : gmap string value) :
  databases_of self = Returns (VDict dbs) →
  dbs !! database = None →
  metadata self (Some key) (Some database) table true =
    Returns (default VNone (_metadata self !! key)) ∧
  metadata self (Some key) (Some database) table false = Returns VNone.
Proof.
  intros Hdbs Hnone.
  assert (database_scope (VDict dbs) (Some database) = Returns (VDict ∅)) as HD.
  { unfold database_scope. simpl. by rewrite Hnone. }
  assert (table_scope (VDict dbs) (Some database) table = Returns (VDict ∅))
    as HT.
  { unfold table_scope. rewrite HD. simpl. by destruct table. }
  split; unfold metadata;
    rewrite (search_list_dicts self (Some database) table _ (VDict dbs) ∅ ∅)
      by eauto.
  - destruct table.
    all: cbn [bind]. all: rewrite first_item_dicts. all: simpl.
    all: rewrite ?lookup_empty. all: by destruct (_metadata self !! key).
  - destruct table.
    all: cbn [bind]. all: rewrite first_item_dicts. all: simpl.
    all: by rewrite ?lookup_empty.
Qed.

(** X8: without fallback the two kinds of lookup agree: the merged view
    is the innermost scope, and a keyed lookup returns the value the
    merged view has for the key, [None] if it has none. *)
Theorem metadata_without_fallback (database table : option string)
    (dbs : value) (T D : gmap string value) :
  (is_Some table → is_Some database) →
  databases_of self = Returns dbs →
  (is_Some database → database_scope dbs database = Returns (VDict D)) →
  (is_Some table → table_scope dbs database table = Returns (VDict T)) →
  let innermost :=
    if table is Some _ then T
    else if database is Some _ then D else _metadata self in
  metadata self None database table false = Returns (VDict innermost) ∧
  ∀ key, metadata self (Some key) database table false =
           Returns (default VNone (innermost !! key)).
Proof.
  intros Hc Hdbs HD HT innermost.
  assert (match database, table with None, Some _ => False | _, _ => True end)
    as Hshape.
  { destruct database, table; try done. destruct Hc as [? [=]]; eauto. }
  unfold metadata.
  rewrite (search_list_dicts self database table false dbs T D) by done.
  simpl. fold innermost. rewrite (right_id_L ∅ (∪)).
  destruct database, table; try done;
    (split; [done|]); intros key; by destruct (innermost !! key).
Qed.

End cascade_facts.

Lemma metadata_unknown_database_witness :
  metadata Sample.ds (Some "license") (Some "nowhere") (Some "t") true =
    Returns (VStr "MIT") ∧
  metadata Sample.ds (Some "license") (Some "nowhere") (Some "t") false =
    Returns VNone.
Proof.
  exact (metadata_unknown_database Sample.ds "license" "nowhere" (Some "t")
           {[ "db" := VDict Sample.database_md ]} eq_refl eq_refl).
Defined.

Lemma metadata_without_fallback_witness :
  metadata Sample.ds None (Some "db") (Some "t") false =
    Returns (VDict Sample.table_md) ∧
  metadata Sample.ds (Some "units") (Some "db") (Some "t") false =
    Returns (VInt 1).
Proof.
  destruct (metadata_without_fallback Sample.ds (Some "db") (Some "t")
              (VDict {[ "db" := VDict Sample.database_md ]})
              Sample.table_md Sample.database_md
              ltac:(eauto) eq_refl (λ _, eq_refl) (λ _, eq_refl))
    as [Hview Hkey].
  split; [exact Hview | exact (Hkey "units")].
Defined.

(** ** Labels from the rows of the batch *)

Section labelled_facts.

Context (env : environment) (self : Datasette).

Lemma label_rows_pairs (column : string) (pairs : list (sqlval * sqlval))
    (m : gmap (string * sqlval) sqlval) :
  label_rows column (row_of <$> pairs) m =
    Returns (foldl (λ m p, <[(column, p.1) := p.2]> m) m pairs).
Proof.
  revert m. induction pairs as [|[id v] pairs IH]; intros m; simpl; [done|].
  apply IH.
Qed.

Lemma labels_lookup (column : string) (pairs : list (sqlval * sqlval))
    (m : gmap (string * sqlval) sqlval) (c : string) (id : sqlval) :
  foldl (λ m p, <[(column, p.1) := p.2]> m) m pairs !! (c, id) =
    if decide (c = column) then
      match (list_to_map (reverse pairs) : gmap sqlval sqlval) !! id with
      | Some v => Some v
      | None => m !! (c, id)
      end
    else m !! (c, id).
Proof.
  revert m. induction pairs as [|[id' v] pairs IH]; intros m; simpl.
  { rewrite lookup_empty. by case_decide. }
  rewrite IH, reverse_cons, list_to_map_app, lookup_union. simpl.
  case_decide as Hc; [subst c|].
  - destruct (list_to_map (reverse pairs) !! id) as [v'|] eqn:Hl; simpl.
    + by rewrite union_Some_l.
    + rewrite (left_id_L None union).
      destruct (decide (id' = id)) as [->|Hne].
      * by rewrite !lookup_insert_eq.
      * rewrite !lookup_insert_ne, lookup_empty by congruence. done.
  - rewrite lookup_insert_ne; [done|]. congruence.
Qed.

Lemma label_rows_bad (column : string) (rs : list row)
    (m : gmap (string * sqlval) sqlval) :
  (∃ r, r ∈ rs ∧ length r ≠ 2) → label_rows column rs m = Raises ValueError.
Proof.
  revert m. induction rs as [|r rs IH]; intros m [bad [Hin Hlen]].
  { by apply elem_of_nil in Hin. }
  simpl. destruct r as [|id [|v [|x r]]]; try done.
  apply IH. exists bad. split; [|done].
  apply elem_of_cons in Hin as [->|Hin]; [done | done].
Qed.

(** X9: when the batch query succeeds with rows of two cells, every row
    contributes the label of its key: the mapping holds, for the column
    asked for and a key [id], the label of the last row with that key,
    and nothing for a key that no row has, so that an input value
    without a referenced row gets no label.  A row that has not two
    cells makes the call fail with [ValueError]. *)
Theorem expand_foreign_keys_labels (database table column : string)
    (values : list sqlval) (w w' : world) (db : Database) (fk : foreign_key)
    (others : list foreign_key) (label_column : string) (r : Results) :
  databases self !! database = Some db →
  filter (λ fk, fk_column fk = column) (foreign_keys_for_table db table) =
    fk :: others →
  label_column_for_table db (fk_other_table fk) = Some label_column →
  label_column ≠ "" →
  execute env self database
    (label_sql env fk label_column (size (list_to_set values : gset sqlval)))
    (Some (ParamList (elements (list_to_set values : gset sqlval))))
    false None None true w = (Returns r, w') →
  (∀ pairs, rows r = row_of <$> pairs →
     ∃ labels,
       expand_foreign_keys env self database table column values w =
         (Returns labels, w') ∧
       ∀ c id,
         labels !! (c, id) =
           if decide (c = column) then
             (list_to_map (reverse pairs) : gmap sqlval sqlval) !! id
           else None) ∧
  ((∃ bad, bad ∈ rows r ∧ length bad ≠ 2) →
   expand_foreign_keys env self database table column values w =
     (Raises ValueError, w')).
Proof.
  intros Hdb Hfk Hlabel Hne Hexec.
  assert (fk_column fk = column) as Hcol.
  { assert (fk ∈ filter (λ fk, fk_column fk = column)
                   (foreign_keys_for_table db table)) as Hin
      by (rewrite Hfk; left).
    by apply list_elem_of_filter in Hin as [Hcol Hin]. }
  assert (expand_foreign_keys env self database table column values w =
            (label_rows column (rows r) ∅, w')) as ->.
  { unfold expand_foreign_keys. rewrite Hdb. simpl. rewrite Hfk, Hlabel.
    destruct label_column as [|a label_column]; [done|].
    by rewrite Hexec, Hcol. }
  split.
  - intros pairs ->. eexists. split; [by rewrite label_rows_pairs|].
    intros c id. rewrite labels_lookup, lookup_empty.
    case_decide; [|done]. by destruct (list_to_map _ !! id).
  - intros Hbad. by rewrite label_rows_bad.
Qed.

End labelled_facts.

Lemma expand_foreign_keys_labels_witness :
  let conn :=
    Sample.serving [[SInt 1; SText "Ann"]; [SInt 2; SText "Bo"];
                    [SInt 1; SText "Anna"]] in
  ∃ labels,
    expand_foreign_keys Sample.env Sample.ds "db" "t" "owner"
      [SInt 1; SInt 2; SInt 3] (Sample.worker conn) =
      (Returns labels, Sample.worker conn) ∧
    labels !! ("owner", SInt 1) = Some (SText "Anna") ∧
    labels !! ("owner", SInt 2) = Some (SText "Bo") ∧
    labels !! ("owner", SInt 3) = None.
Proof.
  intros conn.
  destruct (proj1 (expand_foreign_keys_labels Sample.env Sample.ds "db" "t"
              "owner" [SInt 1; SInt 2; SInt 3] (Sample.worker conn) _
              Sample.db
              {| fk_column := "owner"; fk_other_table := "people";
                 fk_other_column := "id" |} [] "name" _
              eq_refl eq_refl eq_refl ltac:(discriminate) eq_refl)
              [(SInt 1, SText "Ann"); (SInt 2, SText "Bo");
               (SInt 1, SText "Anna")] eq_refl)
    as (labels & Hrun & Hlabels).
  exists labels. split; [exact Hrun|].
  rewrite !Hlabels. repeat split.
Defined.

(** ** Plugin settings and table metadata *)

Section document_facts.

Context (self : Datasette).

(** X10: the settings of a plugin are read from the [plugins] entry of
    the first scope consulted that has one, and from no other: a plugin
    that this entry lacks has no settings, [None], even when a scope
    further out configures it.  Without any [plugins] entry the answer
    is [None]; an entry that is not a dictionary makes the call fail
    with [AttributeError]. *)
Theorem plugin_config_cascade (plugin_name : string)
    (database table : option string) (fallback : bool) (dbs : value)
    (T D : gmap string value) :
  (is_Some table → is_Some database) →
  databases_of self = Returns dbs →
  (is_Some database → database_scope dbs database = Returns (VDict D)) →
  (is_Some table → table_scope dbs database table = Returns (VDict T)) →
  plugin_config self plugin_name database table fallback =
    match spec_first_defining "plugins"
            (spec_scopes database table T D (_metadata self) fallback) with
    | VNone => Returns VNone
    | VDict plugins => Returns (default VNone (plugins !! plugin_name))
    | _ => Raises AttributeError
    end.
Proof.
  intros Hc Hdbs HD HT. unfold plugin_config.
  assert (metadata self (Some "plugins") database table fallback =
            Returns (spec_first_defining "plugins"
              (spec_scopes database table T D (_metadata self) fallback)))
    as ->.
  { unfold metadata.
    rewrite (search_list_dicts self _ _ _ dbs T D) by done. simpl.
    rewrite first_item_dicts.
    destruct database, table; try done. destruct Hc as [? [=]]; eauto. }
  simpl. by destruct (spec_first_defining _ _).
Qed.

Lemma py_get_default_inv (v : value) (k : string) (d r : value) :
  py_get_default v k d = Returns r →
  ∃ m, v = VDict m ∧ r = default d (m !! k).
Proof. destruct v; try done. intros [= <-]. eauto. Qed.

Lemma or_empty_default (m : gmap string value) (k : string)
    (d : gmap string value) :
  default (VDict ∅) (m !! k) = VDict d →
  or_empty (default VNone (m !! k)) = VDict d.
Proof.
  destruct (m !! k) as [v|]; simpl; [|done]. intros ->. apply or_empty_dict.
Qed.

(** X11: when [table_metadata] returns a dictionary, that dictionary is
    the table scope of [metadata]: it is the merged view of the table
    without fallback, and a keyed lookup for the table without fallback
    returns its value for the key, [None] if it has none. *)
Theorem table_metadata_is_table_scope (database table : string)
    (T : gmap string value) :
  table_metadata self database table = Returns (VDict T) →
  metadata self None (Some database) (Some table) false = Returns (VDict T) ∧
  ∀ key, metadata self (Some key) (Some database) (Some table) false =
           Returns (default VNone (T !! key)).
Proof.
  unfold table_metadata. rewrite metadata_global_key. simpl.
  destruct (py_get_default (or_empty _) database (VDict ∅)) as [db|] eqn:Hdb;
    [|done]. simpl.
  destruct (py_get_default db "tables" (VDict ∅)) as [tables|] eqn:Htables;
    [|done]. simpl. intros Htable.
  apply py_get_default_inv in Hdb as (dbs & Hdbs & ->).
  apply py_get_default_inv in Htables as (D & HD & ->).
  apply py_get_default_inv in Htable as (tm & Htm & HT).
  assert (database_scope (VDict dbs) (Some database) = Returns (VDict D))
    as Hscope.
  { unfold database_scope. simpl. by rewrite (or_empty_default _ _ D). }
  assert (table_scope (VDict dbs) (Some database) (Some table) =
            Returns (VDict T)) as Htscope.
  { unfold table_scope. rewrite Hscope. simpl.
    rewrite (or_empty_default _ _ tm) by done. simpl.
    by rewrite (or_empty_default _ _ T). }
  assert (search_list self (Some database) (Some table) false =
            Returns [VDict T]) as Hlist.
  { rewrite (search_list_dicts self _ _ _ (VDict dbs) T D); [done|eauto|..].
    - by rewrite databases_of_returns, Hdbs.
    - done.
    - done. }
  unfold metadata. rewrite Hlist. simpl. split.
  - by rewrite (right_id_L ∅ (∪)).
  - intros key. by destruct (T !! key).
Qed.

(** X12: an entry of [databases] that is there but false and not a
    dictionary, such as [null], makes [table_metadata] fail with
    [AttributeError] for that database, although [metadata] treats the
    same entry as an empty scope and falls back to the global value. *)
Theorem table_metadata_null_database (database table key : string)
    (dbs : gmap string value) (entry : value) :
  _metadata self !! "databases" = Some (VDict dbs) →
  dbs !! database = Some entry →
  truthy entry = false →
  (∀ d, entry ≠ VDict d) →
  table_metadata self database table = Raises AttributeError ∧
  metadata self (Some key) (Some database) (Some table) true =
    Returns (default VNone (_metadata self !! key)).
Proof.
  intros Hdbs Hentry Hfalse Hnodict.
  assert (or_empty (VDict dbs) = VDict dbs) as Hor by apply or_empty_dict.
  split.
  - unfold table_metadata. rewrite metadata_global_key, Hdbs. simpl.
    rewrite Hor. simpl. rewrite Hentry. simpl.
    destruct entry; try done. by destruct (Hnodict d).
  - assert (database_scope (VDict dbs) (Some database) = Returns (VDict ∅))
      as HD.
    { unfold database_scope, or_empty. simpl. by rewrite Hentry; simpl; rewrite Hfalse. }
    assert (table_scope (VDict dbs) (Some database) (Some table) =
              Returns (VDict ∅)) as HT.
    { unfold table_scope. by rewrite HD. }
    unfold metadata.
    rewrite (search_list_dicts self _ _ _ (VDict dbs) ∅ ∅); [|eauto|..|done|done].
    2:{ by rewrite databases_of_returns, Hdbs; simpl; rewrite Hor. }
    cbn [bind]. rewrite first_item_dicts. simpl. rewrite !lookup_empty.
    by destruct (_metadata self !! key).
Qed.

End document_facts.

Lemma plugin_config_cascade_witness :
  plugin_config Fixture.ds "map" (Some "db") (Some "t") true =
    Returns (VDict {[ "zoom" := VInt 9 ]}) ∧
  plugin_config Fixture.ds "auth" (Some "db") (Some "t") true = Returns VNone ∧
  plugin_config Fixture.ds "auth" (Some "db") None true =
    Returns (VDict {[ "on" := VBool true ]}).
Proof.
  split; [|split].
  - exact (plugin_config_cascade Fixture.ds "map" (Some "db") (Some "t") true
             (VDict Fixture.databases_md) Fixture.table_md Fixture.database_md
             ltac:(eauto) eq_refl (λ _, eq_refl) (λ _, eq_refl)).
  - exact (plugin_config_cascade Fixture.ds "auth" (Some "db") (Some "t") true
             (VDict Fixture.databases_md) Fixture.table_md Fixture.database_md
             ltac:(eauto) eq_refl (λ _, eq_refl) (λ _, eq_refl)).
  - exact (plugin_config_cascade Fixture.ds "auth" (Some "db") None true
             (VDict Fixture.databases_md) ∅ Fixture.database_md
             ltac:(by intros [? [=]]) eq_refl (λ _, eq_refl)
             ltac:(by intros [? [=]])).
Defined.

Lemma table_metadata_is_table_scope_witness :
  table_metadata Fixture.ds "db" "t" = Returns (VDict Fixture.table_md) ∧
  metadata Fixture.ds None (Some "db") (Some "t") false =
    Returns (VDict Fixture.table_md) ∧
  metadata Fixture.ds (Some "source") (Some "db") (Some "t") false =
    Returns VNone.
Proof.
  split; [reflexivity|].
  destruct (table_metadata_is_table_scope Fixture.ds "db" "t"
              Fixture.table_md eq_refl) as [Hview Hkey].
  split; [exact Hview | exact (Hkey "source")].
Defined.

Lemma table_metadata_null_database_witness :
  table_metadata Fixture.ds "blank" "t" = Raises AttributeError ∧
  metadata Fixture.ds (Some "license") (Some "blank") (Some "t") true =
    Returns (VStr "MIT").
Proof.
  exact (table_metadata_null_database Fixture.ds "blank" "t" "license"
           Fixture.databases_md VNone eq_refl eq_refl eq_refl
           ltac:(discriminate)).
Defined.

(** ** Inherited source and licence *)

Section inherited_facts.

Context (self : Datasette).

Lemma inherited_returns (m : gmap string value) (key : string) :
  inherited self m key =
    Returns (py_or (default VNone (m !! key))
                   (default VNone (_metadata self !! key))).
Proof.
  unfold inherited, py_or. cbn [py_get bind].
  destruct (truthy _); [done|]. apply metadata_global_key.
Qed.

Lemma py_or_absorb (a g : value) : py_or (py_or a g) g = py_or a g.
Proof.
  unfold py_or. destruct (truthy a) eqn:Ha; [by rewrite Ha|].
  by destruct (truthy g).
Qed.

Ltac inherited_lookup :=
  repeat first
    [ rewrite lookup_insert_eq
    | rewrite lookup_insert_ne by done
    | rewrite lookup_singleton_eq
    | rewrite lookup_singleton_ne by done ].

(** X13: [update_with_inherited_metadata] never fails.  Afterwards each
    of the six keys [source], [source_url], [license], [license_url],
    [about] and [about_url] is present: with the value the dictionary
    had if that was true, else with the global value, which is [None]
    when the document has none; the other keys are as they were.
    Running it on its own result changes nothing. *)
Theorem update_with_inherited_metadata_result (m : gmap string value) :
  ∃ m',
    update_with_inherited_metadata self m = Returns m' ∧
    (∀ key, key ∈ inherited_keys →
       m' !! key = Some (py_or (default VNone (m !! key))
                               (default VNone (_metadata self !! key)))) ∧
    (∀ key, key ∉ inherited_keys → m' !! key = m !! key) ∧
    update_with_inherited_metadata self m' = Returns m'.
Proof.
  set (f := λ (m : gmap string value) key,
         py_or (default VNone (m !! key))
               (default VNone (_metadata self !! key))).
  set (six := λ (m : gmap string value),
         ({[ "source" := f m "source"; "source_url" := f m "source_url";
             "license" := f m "license"; "license_url" := f m "license_url";
             "about" := f m "about"; "about_url" := f m "about_url" ]}
          : gmap string value)).
  assert (∀ m, update_with_inherited_metadata self m = Returns (six m ∪ m))
    as Hrun.
  { intros m0. unfold update_with_inherited_metadata.
    by rewrite !inherited_returns. }
  assert (∀ m0 key, key ∈ inherited_keys → six m0 !! key = Some (f m0 key))
    as Hsix.
  { intros m0 key Hin. unfold inherited_keys in Hin.
    repeat (apply elem_of_cons in Hin as [->|Hin];
            [unfold six; by inherited_lookup|]).
    by apply elem_of_nil in Hin. }
  assert (∀ m0 key, key ∉ inherited_keys → six m0 !! key = None) as Hrest.
  { intros m0 key Hout. unfold inherited_keys in Hout. unfold six.
    repeat (rewrite lookup_insert_ne
              by (intros <-; apply Hout; repeat constructor)).
    apply lookup_singleton_ne. intros <-. apply Hout. repeat constructor. }
  exists (six m ∪ m). split; [apply Hrun|]. split; [|split].
  - intros key Hin. by rewrite lookup_union, (Hsix _ _ Hin), union_Some_l.
  - intros key Hout. by rewrite lookup_union, (Hrest _ _ Hout), (left_id_L None union).
  - rewrite Hrun. f_equal. apply map_eq. intros key.
    rewrite !lookup_union.
    destruct (decide (key ∈ inherited_keys)) as [Hin|Hout].
    + rewrite !(Hsix _ _ Hin). unfold f at 1.
      rewrite lookup_union, (Hsix _ _ Hin), !union_Some_l. simpl.
      unfold f. by rewrite py_or_absorb.
    + rewrite !(Hrest _ _ Hout). by rewrite !(left_id_L None union).
Qed.

End inherited_facts.

(** ** Canned queries *)

Section canned_query_facts.

Context (self : Datasette).

Lemma database_queries (s : Datasette) (database_name : string) (dbs : value)
    (D : gmap string value) :
  databases_of s = Returns dbs →
  database_scope dbs (Some database_name) = Returns (VDict D) →
  metadata s (Some "queries") (Some database_name) None false =
    Returns (default VNone (D !! "queries")).
Proof.
  intros Hdbs HD. unfold metadata.
  rewrite (search_list_dicts s _ _ _ dbs ∅ D); [|by intros [? [=]]|done..|].
  2:{ by intros [? [=]]. }
  cbn [bind]. rewrite first_item_dicts. simpl. by destruct (D !! "queries").
Qed.

(** X14: [get_canned_query] looks for the query among the [queries] of
    the database scope only, so that a query defined at the global scope
    is not found.  A query that is missing or false gives [None]; a
    query that is true and not a dictionary, such as the text of a
    statement, gives the dictionary with that value under [sql] and the
    name under [name].  In each of these cases the instance is as
    before. *)
Theorem get_canned_query_result (database_name query_name : string)
    (dbs : value) (D : gmap string value) :
  databases_of self = Returns dbs →
  database_scope dbs (Some database_name) = Returns (VDict D) →
  (D !! "queries" = None →
   get_canned_query self database_name query_name = (Returns VNone, self)) ∧
  ∀ q, D !! "queries" = Some (VDict q) →
    (q !! query_name = None →
     get_canned_query self database_name query_name = (Returns VNone, self)) ∧
    ∀ v, q !! query_name = Some v →
      (truthy v = false →
       get_canned_query self database_name query_name =
         (Returns VNone, self)) ∧
      (truthy v = true → (∀ d, v ≠ VDict d) →
       get_canned_query self database_name query_name =
         (Returns (VDict (<["name" := VStr query_name]> {[ "sql" := v ]})),
          self)).
Proof.
  intros Hdbs HD. unfold get_canned_query.
  rewrite (database_queries self _ dbs D) by done. split.
  - by intros ->.
  - intros q ->. change (default VNone (Some (VDict q))) with (VDict q).
    cbn [bind]. rewrite or_empty_dict. cbn [py_get].
    split; [by intros ->|]. intros v ->.
    change (default VNone (Some v)) with v. split.
    + by intros ->.
    + intros -> Hnodict. destruct v; try done. by destruct (Hnodict d).
Qed.

Lemma alter_present {A} (f : A → A) (m : gmap string A) (i : string) (x : A) :
  m !! i = Some x → alter f i m = <[i := f x]> m.
Proof.
  intros Hi. apply map_eq. intros j. rewrite lookup_alter, lookup_insert.
  case_decide; [subst j; by rewrite Hi | done].
Qed.

(** The document after [name_query], when the query is a dictionary. *)
Lemma name_query_present (database_name query_name : string)
    (document dbs D q d : gmap string value) :
  document !! "databases" = Some (VDict dbs) →
  dbs !! database_name = Some (VDict D) →
  D !! "queries" = Some (VDict q) →
  q !! query_name = Some (VDict d) →
  name_query database_name query_name document =
    <["databases" := VDict
        (<[database_name := VDict
             (<["queries" := VDict
                  (<[query_name := VDict (<["name" := VStr query_name]> d)]> q)]>
                D)]> dbs)]> document.
Proof.
  intros Hdbs HD Hq Hd. unfold name_query.
  rewrite (alter_present _ _ _ _ Hdbs). simpl.
  rewrite (alter_present _ _ _ _ HD). simpl.
  rewrite (alter_present _ _ _ _ Hq). simpl.
  by rewrite (alter_present _ _ _ _ Hd).
Qed.

Lemma get_canned_query_dict (s : Datasette) (database_name query_name : string)
    (dbs D q d : gmap string value) :
  _metadata s !! "databases" = Some (VDict dbs) →
  dbs !! database_name = Some (VDict D) →
  D !! "queries" = Some (VDict q) →
  q !! query_name = Some (VDict d) →
  d ≠ ∅ →
  get_canned_query s database_name query_name =
    (Returns (VDict (<["name" := VStr query_name]> d)),
     with_metadata s (name_query database_name query_name (_metadata s))).
Proof.
  intros Hdbs HD Hq Hd Hne. unfold get_canned_query.
  assert (Sdbs : databases_of s = Returns (VDict dbs)).
  { unfold databases_of. cbn [py_get bind]. rewrite Hdbs.
    change (default VNone (Some (VDict dbs))) with (VDict dbs).
    by rewrite or_empty_dict. }
  assert (SD : database_scope (VDict dbs) (Some database_name) =
               Returns (VDict D)).
  { unfold database_scope. cbn [py_get bind]. rewrite HD.
    change (default VNone (Some (VDict D))) with (VDict D).
    by rewrite or_empty_dict. }
  assert (metadata s (Some "queries") (Some database_name) None false =
            Returns (VDict q)) as ->.
  { unfold metadata.
    rewrite (search_list_dicts s _ _ _ (VDict dbs) ∅ D);
      [|by intros [? [=]]|done..|by intros [? [=]]].
    cbn [bind]. rewrite first_item_dicts. simpl. by rewrite Hq. }
  cbn [bind]. rewrite or_empty_dict. cbn [py_get]. rewrite Hd.
  change (default VNone (Some (VDict d))) with (VDict d).
  assert (truthy (VDict d) = true) as ->; [|done].
  simpl. apply negb_true_iff, bool_decide_eq_false.
  by rewrite dom_empty_iff_L.
Qed.

(** X15: a query that is a dictionary is returned with its name added,
    and it is the dictionary of the document that gets the name, not a
    copy: afterwards the [queries] of the database hold the query with
    its name, and asking for the query again returns the same and
    changes nothing more. *)
Theorem get_canned_query_names_document (database_name query_name : string)
    (dbs D q d : gmap string value) :
  _metadata self !! "databases" = Some (VDict dbs) →
  dbs !! database_name = Some (VDict D) →
  D !! "queries" = Some (VDict q) →
  q !! query_name = Some (VDict d) →
  d ≠ ∅ →
  let named := VDict (<["name" := VStr query_name]> d) in
  ∃ self',
    get_canned_query self database_name query_name = (Returns named, self') ∧
    metadata self' (Some "queries") (Some database_name) None false =
      Returns (VDict (<[query_name := named]> q)) ∧
    get_canned_query self' database_name query_name = (Returns named, self').
Proof.
  intros Hdbs HD Hq Hd Hne named.
  set (q' := <[query_name := named]> q).
  set (D' := <["queries" := VDict q']> D).
  set (dbs' := <[database_name := VDict D']> dbs).
  set (document' := <["databases" := VDict dbs']> (_metadata self)).
  assert (name_query database_name query_name (_metadata self) = document')
    as Hdoc by (by apply name_query_present).
  exists (with_metadata self document').
  assert (Hdbs' : _metadata (with_metadata self document') !! "databases" =
                  Some (VDict dbs')) by apply lookup_insert_eq.
  assert (HD' : dbs' !! database_name = Some (VDict D'))
    by apply lookup_insert_eq.
  assert (Hq' : D' !! "queries" = Some (VDict q')) by apply lookup_insert_eq.
  assert (Hd' : q' !! query_name = Some named) by apply lookup_insert_eq.
  split; [|split].
  - by rewrite (get_canned_query_dict self _ _ dbs D q d), Hdoc.
  - rewrite (database_queries _ _ (VDict dbs') D'); [by rewrite Hq'|..].
    + unfold databases_of. cbn [py_get bind]. rewrite Hdbs'.
      change (default VNone (Some (VDict dbs'))) with (VDict dbs').
      by rewrite or_empty_dict.
    + unfold database_scope. cbn [py_get bind]. rewrite HD'.
      change (default VNone (Some (VDict D'))) with (VDict D').
      by rewrite or_empty_dict.
  - rewrite (get_canned_query_dict _ _ _ dbs' D' q'
               (<["name" := VStr query_name]> d)); [|done..|].
    2:{ intros Hempty. apply (f_equal (λ m, m !! "name")) in Hempty.
        by rewrite lookup_insert_eq, lookup_empty in Hempty. }
    rewrite insert_insert_eq. fold named. do 2 f_equal.
    rewrite (name_query_present _ _ _ dbs' D' q'
               (<["name" := VStr query_name]> d)) by done.
    rewrite insert_insert_eq. fold named.
    unfold document', dbs', D', q'. simpl.
    by rewrite !insert_insert_eq.
Qed.

End canned_query_facts.

Lemma get_canned_query_result_witness :
  get_canned_query Fixture.ds "db" "top" =
    (Returns (VDict {[ "sql" := VStr "select 1"; "name" := VStr "top" ]}),
     Fixture.ds) ∧
  get_canned_query Fixture.ds "db" "off" = (Returns VNone, Fixture.ds) ∧
  get_canned_query Fixture.ds "db" "missing" = (Returns VNone, Fixture.ds).
Proof.
  destruct (get_canned_query_result Fixture.ds "db" "top"
              (VDict Fixture.databases_md) Fixture.database_md
              eq_refl eq_refl) as [_ Htop].
  destruct (get_canned_query_result Fixture.ds "db" "off"
              (VDict Fixture.databases_md) Fixture.database_md
              eq_refl eq_refl) as [_ Hoff].
  destruct (get_canned_query_result Fixture.ds "db" "missing"
              (VDict Fixture.databases_md) Fixture.database_md
              eq_refl eq_refl) as [_ Hmissing].
  split; [|split].
  - exact (proj2 (proj2 (Htop Fixture.queries eq_refl)
                    (VStr "select 1") eq_refl)
             eq_refl ltac:(discriminate)).
  - exact (proj1 (proj2 (Hoff Fixture.queries eq_refl) (VStr "") eq_refl)
             eq_refl).
  - exact (proj1 (Hmissing Fixture.queries eq_refl) eq_refl).
Defined.

Lemma get_canned_query_names_document_witness :
  ∃ self',
    get_canned_query Fixture.ds "db" "named" =
      (Returns (VDict {[ "sql" := VStr "select 2"; "title" := VStr "Two";
                         "name" := VStr "named" ]}), self') ∧
    (v ←! metadata self' (Some "queries") (Some "db") None false;
     q ←! py_getitem v "named"; py_getitem q "name") =
      Returns (VStr "named") ∧
    (v ←! metadata Fixture.ds (Some "queries") (Some "db") None false;
     q ←! py_getitem v "named"; py_getitem q "name") =
      Raises (KeyError "name").
Proof.
  destruct (get_canned_query_names_document Fixture.ds "db" "named"
              Fixture.databases_md Fixture.database_md Fixture.queries
              Fixture.named_query eq_refl eq_refl eq_refl eq_refl
              ltac:(discriminate))
    as (self' & Hrun & Hqueries & _).
  exists self'. split; [exact Hrun|]. split; [|reflexivity].
  rewrite Hqueries. reflexivity.
Defined.

(** ** Settings *)

Lemma option_names_distinct : NoDup option_names.
Proof.
  unfold option_names. simpl.
  repeat (apply NoDup_cons; split;
          [rewrite !elem_of_cons, elem_of_nil; intros H;
           repeat (destruct H as [H|H]; [discriminate H|]); exact H|]).
  apply NoDup_singleton.
Qed.

Lemma options_lookup (g : string → value) (options : list ConfigOption)
    (key : string) :
  (list_to_map ((λ o, (option_name o, g (option_name o))) <$> options)
     : gmap string value) !! key =
    if decide (key ∈ option_name <$> options) then Some (g key) else None.
Proof.
  induction options as [|o options IH].
  { apply lookup_empty. }
  rewrite !fmap_cons, list_to_map_cons.
  destruct (decide (option_name o = key)) as [<-|Hne].
  - rewrite lookup_insert_eq, decide_True; [done | by left].
  - rewrite lookup_insert_ne, IH by done.
    destruct (decide (key ∈ option_name <$> options)) as [Hin|Hout].
    + rewrite decide_True; [done | by right].
    + rewrite decide_False; [done|].
      by intros [->|?]%elem_of_cons.
Qed.

(** X16: a setting is the value given at start-up when the key was
    given, the default of the option otherwise, and [None] for a key
    that is neither given nor an option.  [config_dict] holds the
    nineteen options and nothing else, each with the value [config]
    returns: a key given at start-up that is not an option is answered
    by [config] and left out of [config_dict]. *)
Theorem config_settings (given : option (gmap string value)) (key : string) :
  let _config := init_config given in
  config _config key =
    match default ∅ given !! key with
    | Some v => v
    | None => default VNone (DEFAULT_CONFIG !! key)
    end ∧
  config_dict _config !! key =
    (if decide (key ∈ option_names) then Some (config _config key) else None) ∧
  length option_names = 19 ∧ NoDup option_names.
Proof.
  simpl. split; [|split; [|split]].
  - unfold config, init_config. rewrite lookup_union.
    destruct (default ∅ given !! key) as [v|].
    + by rewrite union_Some_l.
    + by rewrite (left_id_L None union).
  - unfold config_dict. apply options_lookup.
  - reflexivity.
  - apply option_names_distinct.
Qed.

(** ** The databases of an instance *)

Section registration_facts.

Context (name : Database → string).
Context (inspect : option string →
                   (string → list foreign_key) * (string → option string)).

Lemma register_files_distinct (immutables : list string) (fs : list file)
    (dbs : gmap string Database) :
  let entries := database_of_file inspect immutables <$> fs in
  NoDup (name <$> entries) →
  (∀ n, n ∈ name <$> entries → dbs !! n = None) →
  register_files name inspect immutables fs dbs =
    Registered (list_to_map (named name <$> entries) ∪ dbs).
Proof.
  revert dbs. induction fs as [|f fs IH]; intros dbs entries Hnodup Hfresh.
  { simpl. by rewrite (left_id_L ∅ (∪)). }
  simpl in *. apply NoDup_cons in Hnodup as [Hnotin Hnodup].
  rewrite bool_decide_eq_false_2.
  2:{ rewrite Hfresh; [by intros [? [=]] | by left]. }
  rewrite IH; [|done|].
  - f_equal. symmetry. rewrite <- insert_union_l.
    apply insert_union_r, not_elem_of_list_to_map.
    rewrite <- list_fmap_compose. exact Hnotin.
  - intros n Hin. rewrite lookup_insert_ne; [apply Hfresh; by right|].
    by intros <-.
Qed.

Lemma register_files_clash (immutables : list string) (fs : list file)
    (dbs : gmap string Database) :
  let entries := database_of_file inspect immutables <$> fs in
  ¬ (NoDup (name <$> entries) ∧ ∀ n, n ∈ name <$> entries → dbs !! n = None) →
  ∃ n, register_files name inspect immutables fs dbs = MultipleFiles n ∧
       n ∈ name <$> entries.
Proof.
  revert dbs. induction fs as [|f fs IH]; intros dbs entries Hclash.
  { destruct Hclash. split; [constructor|]. by intros n ?%elem_of_nil. }
  simpl in *. case_bool_decide as Hheld.
  { eexists. split; [done | by left]. }
  destruct (IH (<[name (database_of_file inspect immutables f) :=
                   database_of_file inspect immutables f]> dbs))
    as (n & Hn & Hin).
  - intros [Hnodup Hfresh]. apply Hclash. split.
    + apply NoDup_cons. split; [|done].
      intros Hin. specialize (Hfresh _ Hin).
      by rewrite lookup_insert_eq in Hfresh.
    + intros n [->|Hin]%elem_of_cons.
      * by apply eq_None_not_Some.
      * specialize (Hfresh _ Hin).
        destruct (decide (name (database_of_file inspect immutables f) = n))
          as [<-|Hne]; [by rewrite lookup_insert_eq in Hfresh|].
        by rewrite lookup_insert_ne in Hfresh.
  - exists n. split; [done | by right].
Qed.

(** X17: [__init__] registers one database for each element of its list
    of files, under the name of the database, when those names are all
    different; when two of them are the same it stops with "Multiple
    files with same stem" for one of the names. *)
Theorem init_databases_names (files immutables : list string) (memory : bool) :
  let entries :=
    database_of_file inspect immutables <$> init_files files immutables memory in
  (NoDup (name <$> entries) →
   init_databases name inspect files immutables memory =
     Registered (list_to_map (named name <$> entries))) ∧
  (¬ NoDup (name <$> entries) →
   ∃ n, init_databases name inspect files immutables memory = MultipleFiles n ∧
        n ∈ name <$> entries).
Proof.
  intros entries. unfold init_databases. split.
  - intros Hnodup. rewrite register_files_distinct; [|done|done].
    by rewrite (right_id_L ∅ (∪)).
  - intros Hdup. apply register_files_clash. by intros [? _].
Qed.

(** X18: a path that is listed twice, among the files, among the
    immutable files or once among each, is refused, however databases
    are named. *)
Theorem init_databases_repeated_path (files immutables : list string)
    (memory : bool) :
  ¬ NoDup (files ++ immutables) →
  ∃ n, init_databases name inspect files immutables memory = MultipleFiles n.
Proof.
  intros Hdup. unfold init_databases.
  destruct (register_files_clash immutables
              (init_files files immutables memory) ∅) as (n & Hn & _);
    [|by exists n].
  intros [Hnodup _]. apply Hdup.
  apply NoDup_fmap_1, NoDup_fmap_1 in Hnodup.
  apply (NoDup_fmap_1 File). unfold init_files in Hnodup.
  destruct (File <$> files ++ immutables) as [|f fs] eqn:Hall; [constructor|].
  destruct memory; [|done]. by apply NoDup_cons in Hnodup as [_ ?].
Qed.

End registration_facts.

Lemma init_databases_names_witness :
  (∃ dbs,
     init_databases Fixture.name Fixture.inspect ["a.db"] ["b.db"] true =
       Registered dbs ∧
     is_mutable <$> dbs !! "a.db" = Some true ∧
     is_mutable <$> dbs !! "b.db" = Some false ∧
     is_memory <$> dbs !! ":memory:" = Some true ∧
     dbs !! "c.db" = None) ∧
  ∃ n,
    init_databases Fixture.name Fixture.inspect ["a.db"; "b.db"] ["a.db"] false =
      MultipleFiles n ∧
    n ∈ ["a.db"; "b.db"; "a.db"].
Proof.
  split.
  - eexists. split.
    + apply (proj1 (init_databases_names Fixture.name Fixture.inspect
                      ["a.db"] ["b.db"] true)).
      simpl.
      repeat (apply NoDup_cons; split;
              [rewrite !elem_of_cons, elem_of_nil; intros H;
               repeat (destruct H as [H|H]; [discriminate H|]); exact H|]).
      apply NoDup_singleton.
    + repeat split.
  - apply (proj2 (init_databases_names Fixture.name Fixture.inspect
                    ["a.db"; "b.db"] ["a.db"] false)).
    simpl. intros [Hdup _]%NoDup_cons. apply Hdup. right. by left.
Defined.

Lemma init_databases_repeated_path_witness :
  ∃ n,
    init_databases Fixture.name Fixture.inspect ["a.db"] ["a.db"] true =
      MultipleFiles n.
Proof.
  apply (init_databases_repeated_path Fixture.name Fixture.inspect
           ["a.db"] ["a.db"] true).
  simpl. intros [Hdup _]%NoDup_cons. apply Hdup. by left.
Defined.

(** ** Response headers *)

Section header_facts.

Lemma dict_setitem_absent (k v : string) (d : list (string * string)) :
  k ∉ d.*1 → dict_setitem k v d = d ++ [(k, v)].
Proof.
  induction d as [|[k' v'] d IH]; intros Hk; simpl; [done|].
  rewrite bool_decide_eq_false_2.
  - rewrite IH; [done|]. intros Hin. apply Hk. by right.
  - intros ->. apply Hk. by left.
Qed.

Lemma dict_of_pairs_from (d pairs : list (string * string)) :
  NoDup (d ++ pairs).*1 →
  foldl (λ d kv, dict_setitem kv.1 kv.2 d) d pairs = d ++ pairs.
Proof.
  revert d. induction pairs as [|[k v] pairs IH]; intros d Hnodup; simpl.
  { by rewrite (right_id_L [] (++)). }
  rewrite dict_setitem_absent.
  - rewrite IH; rewrite <- (assoc_L (++)); done.
  - rewrite fmap_app in Hnodup. apply NoDup_app in Hnodup as (_ & Hsep & _).
    intros Hin. apply (Hsep _ Hin). by left.
Qed.

Lemma dict_of_pairs_distinct (pairs : list (string * string)) :
  NoDup pairs.*1 → dict_of_pairs pairs = pairs.
Proof. intros Hnodup. by apply (dict_of_pairs_from []). Qed.

Lemma dict_setitem_keys (P : string → Prop) (k v : string)
    (d : list (string * string)) :
  P k → Forall (λ kv, P kv.1) d → Forall (λ kv, P kv.1) (dict_setitem k v d).
Proof.
  intros Hk. induction d as [|[k' v'] d IH]; intros Hd; simpl.
  { by constructor. }
  apply Forall_cons in Hd as [Hk' Hd]. case_bool_decide.
  - by constructor.
  - constructor; [done | by apply IH].
Qed.

Lemma dict_of_pairs_keys (P : string → Prop) (d pairs : list (string * string)) :
  Forall (λ kv, P kv.1) d → Forall (λ kv, P kv.1) pairs →
  Forall (λ kv, P kv.1) (foldl (λ d kv, dict_setitem kv.1 kv.2 d) d pairs).
Proof.
  intros Hd Hpairs. revert d Hd.
  induction Hpairs as [|[k v] pairs Hk Hpairs IH]; intros d Hd; simpl; [done|].
  apply IH. by apply dict_setitem_keys.
Qed.

Lemma filter_none {A} (P : A → Prop) `{∀ x, Decision (P x)} (l : list A) :
  Forall (λ x, ¬ P x) l → filter P l = [].
Proof.
  induction 1 as [|x l Hx Hl IH]; [done|].
  by rewrite filter_cons, decide_False.
Qed.

(** X19: the headers that [asgi_start] sends hold one content type,
    whatever the case of the letters of the header names it was given:
    the only header whose name in lower case is [content-type] is the
    last one, named [content-type], with the content type of the call.
    The other headers are sent as they were given, in their order. *)
Theorem asgi_start_content_type (status : nat)
    (headers : list (string * string)) (content_type : string) :
  let sent := start_headers (asgi_start status headers content_type) in
  filter (λ kv, lower kv.1 = "content-type") sent =
    [("content-type", content_type)] ∧
  last sent = Some ("content-type", content_type) ∧
  (NoDup headers.*1 →
   sent = filter (λ kv, lower kv.1 ≠ "content-type") headers ++
          [("content-type", content_type)]).
Proof.
  intros sent. subst sent. unfold asgi_start. cbn [start_headers].
  set (kept := filter (λ kv, lower kv.1 ≠ "content-type") headers).
  assert (Forall (λ kv : string * string, lower kv.1 ≠ "content-type") kept)
    as Hkept.
  { apply Forall_forall. intros kv Hin.
    by apply list_elem_of_filter in Hin as [? _]. }
  assert (Forall (λ kv : string * string, lower kv.1 ≠ "content-type")
            (dict_of_pairs kept)) as Hdict.
  { by apply (dict_of_pairs_keys (λ k, lower k ≠ "content-type") []). }
  assert ("content-type" ∉ (dict_of_pairs kept).*1) as Habsent.
  { intros ([k v] & Hk & Hin)%list_elem_of_fmap. simpl in Hk. subst k.
    rewrite Forall_forall in Hdict. by apply (Hdict _ Hin). }
  rewrite dict_setitem_absent by done. split; [|split].
  - rewrite filter_app, (filter_none _ (dict_of_pairs kept)).
    + done.
    + eapply Forall_impl; [exact Hdict|]. intros kv Hne. by intros ?.
  - apply last_snoc.
  - intros Hnodup. rewrite dict_of_pairs_distinct; [done|].
    unfold kept. clear -Hnodup.
    induction headers as [|[k v] headers IH]; [constructor|].
    apply NoDup_cons in Hnodup as [Hk Hnodup].
    rewrite filter_cons. destruct (decide _); [|by apply IH].
    simpl. apply NoDup_cons. split; [|by apply IH].
    intros ([k' v'] & -> & Hin)%list_elem_of_fmap.
    apply list_elem_of_filter in Hin as [_ Hin].
    apply Hk. by apply (list_elem_of_fmap_2 fst) in Hin.
Qed.

End header_facts.

Lemma asgi_start_content_type_witness :
  start_headers
    (asgi_start 200 [("Content-Type", "text/plain"); ("x-databases", "db");
                     ("content-type", "text/css")] "text/html") =
    [("x-databases", "db"); ("content-type", "text/html")].
Proof.
  apply (proj2 (proj2 (asgi_start_content_type 200
           [("Content-Type", "text/plain"); ("x-databases", "db");
            ("content-type", "text/css")] "text/html"))).
  simpl.
  repeat (apply NoDup_cons; split;
          [rewrite !elem_of_cons, elem_of_nil; intros H;
           repeat (destruct H as [H|H]; [discriminate H|]); exact H|]).
  apply NoDup_singleton.
Defined.

Lemma update_with_inherited_metadata_result_witness :
  ∃ m',
    update_with_inherited_metadata Fixture.ds Fixture.database_md = Returns m' ∧
    m' !! "source" = Some (VStr "Census") ∧
    m' !! "license" = Some (VStr "MIT") ∧
    m' !! "about" = Some VNone ∧
    m' !! "queries" = Some (VDict Fixture.queries).
Proof.
  destruct (update_with_inherited_metadata_result Fixture.ds
              Fixture.database_md) as (m' & Hrun & Hkeys & Hrest & _).
  exists m'. split; [exact Hrun|].
  assert (∀ key, key ∈ inherited_keys ↔
                 bool_decide (key ∈ inherited_keys) = true) as Hdec
    by (intros key; by rewrite bool_decide_eq_true).
  rewrite (Hkeys "source"), (Hkeys "license"), (Hkeys "about"),
    (Hrest "queries");
    [repeat split | rewrite Hdec; by intros [=] | by apply Hdec..].
Defined.
